(** * Azerbaijani retro musics: the Wikidata fetcher and its report

    A shallow embedding of [azerbaijaniretromusics.py]: the class
    [WikiDataQueryResults] (flattening of SPARQL JSON bindings into a
    pandas DataFrame) and the module-level script that derives the
    album statistics and draws five charts. *)

From stdpp Require Import gmap strings list sorting pretty.
From Stdlib Require Import ZArith Ascii.

#[local] Set Warnings "-clear-no-such-hyp,-register-all".
Local Open Scope string_scope.
Local Open Scope list_scope.
Local Open Scope nat_scope.

(** ** Python exceptions and results *)

(** The exception classes that can leave [execute_query] and the
    script.  The first group is raised by [SPARQLWrapper.query] and
    [convert], [OtherError] standing for any class not listed;
    [KeyError] is raised by a failing subscript on a dict or
    on a DataFrame; [TypeError] by a subscript or an iteration on a
    value whose type has none; [IndexError] by an index out of range,
    also inside the bar plot of an empty Series; [AttributeError] by the
    [.dt] accessor on a column that is not datetime-like; [ValueError]
    by a conversion to [int] of a value that is not a number. *)
Inductive exn :=
| URLError
| HTTPError (status : Z)
| QueryBadFormed
| EndPointNotFound
| Unauthorized
| URITooLong
| EndPointInternalError
| JSONDecodeError
| OtherError (class : string)
| KeyError (key : string)
| TypeError
| IndexError
| AttributeError
| ValueError.

Inductive res (A : Type) :=
| Ok (a : A)
| Raise (e : exn).
Arguments Ok {A} a.
Arguments Raise {A} e.

#[global] Instance res_ret : MRet res := λ A a, Ok a.
#[global] Instance res_fmap : FMap res := λ A B f r,
  match r with
  | Ok a => Ok (f a)
  | Raise e => Raise e
  end.
#[global] Instance res_bind : MBind res := λ A B f r,
  match r with
  | Ok a => f a
  | Raise e => Raise e
  end.

(** [d[key]] on a Python dict. *)
Definition getitem {V} (d : gmap string V) (key : string) : res V :=
  match d !! key with
  | Some v => Ok v
  | None => Raise (KeyError key)
  end.

(** ** The SPARQL JSON result document *)

(** One bound variable: the members of the JSON object ([type],
    [value], [datatype], [xml:lang]), all of them strings. *)
Abbreviation Binding := (gmap string string).
(** One result row of the endpoint: variable name to binding. *)
Abbreviation RawBinding := (gmap string Binding).
(** A flattened row: variable name to the scalar value. *)
Abbreviation FlatRow := (gmap string string).
(** What [convert()] returns, restricted to the members the code reads:
    [doc['results']['bindings']] is the list of rows. *)
Abbreviation Document := (gmap string (gmap string (list RawBinding))).

(** *** Responses of another shape *)

(** A JSON value as the decoder returns it: used for the values the
    code meets inside a row that is a list. *)
Inductive json :=
| JNull
| JBool (b : bool)
| JInt (n : Z)
| JFloat
| JString (s : string)
| JArray (items : list json)
| JObject (members : gmap string json).

(** What [convert()] can return: every JSON document in which the
    objects that stand for bindings have string members only.  At each
    level the value is the one the code expects or a value of another
    JSON type; the members of a row that is an object are in the order
    of the document. *)
Inductive binding_slot :=
| ABinding (binding : Binding)
| NotAnObject.

Inductive row_slot :=
| ARow (members : list (string * binding_slot))
| RowString (s : string)
| RowArray (items : list json)
| RowNotIterable.

Inductive bindings_slot :=
| Rows (items : list row_slot)
| BindingsObject (keys : list string)
| BindingsString (s : string)
| BindingsNotIterable.

Inductive results_slot :=
| ResultsObject (members : gmap string bindings_slot)
| ResultsNotAnObject.

Inductive Response :=
| TopObject (members : gmap string results_slot)
| TopNotAnObject.

(** The response that is a document of the expected shape. *)
Definition shaped_row (row : RawBinding) : row_slot :=
  ARow (map_to_list (ABinding <$> row)).

Definition shaped (document : Document) : Response :=
  TopObject
    ((λ results : gmap string (list RawBinding),
        ResultsObject ((λ bindings, Rows (shaped_row <$> bindings)) <$> results))
       <$> document).

(** ** WikiDataQueryResults.__transform2dicts *)

(** The inner loop: [new_result[key] = result[key]['value']] for every
    key of the row. *)
Definition transform_row (result : RawBinding) : res FlatRow :=
  map_fold
    (λ key binding (acc : res FlatRow),
       new_result ← acc;
       value ← getitem binding "value";
       Ok (<[key := value]> new_result))
    (Ok ∅) result.

(** The outer loop: one [new_results.append(new_result)] per row. *)
Definition transform2dicts (results : list RawBinding) : res (list FlatRow) :=
  foldl
    (λ (acc : res (list FlatRow)) row,
       new_results ← acc;
       new_result ← transform_row row;
       Ok (new_results ++ [new_result]))
    (Ok []) results.

(** *** The same loops on a response of any shape *)

(** [response['results']] and [results['bindings']]: a subscript with a
    string on a value that is no dict is a [TypeError]. *)
Definition response_getitem (response : Response) (key : string) : res results_slot :=
  match response with
  | TopObject members => getitem members key
  | TopNotAnObject => Raise TypeError
  end.

Definition results_getitem (results : results_slot) (key : string) : res bindings_slot :=
  match results with
  | ResultsObject members => getitem members key
  | ResultsNotAnObject => Raise TypeError
  end.

(** [for result in results]: a list gives its items, a dict its keys, a
    string its characters; nothing else can be iterated. *)
Definition iterate (results : bindings_slot) : res (list row_slot) :=
  match results with
  | Rows items => Ok items
  | BindingsObject keys => Ok (RowString <$> keys)
  | BindingsString s =>
      Ok ((λ c, RowString (String c EmptyString)) <$> String.list_ascii_of_string s)
  | BindingsNotIterable => Raise TypeError
  end.

(** [result[key]['value']] for a row that is a dict. *)
Definition slot_value (slot : binding_slot) : res string :=
  match slot with
  | ABinding binding => getitem binding "value"
  | NotAnObject => Raise TypeError
  end.

Fixpoint transform_members (new_result : FlatRow) (members : list (string * binding_slot))
  : res FlatRow :=
  match members with
  | [] => Ok new_result
  | (key, slot) :: members' =>
      value ← slot_value slot;
      transform_members (<[key := value]> new_result) members'
  end.

(** [result[key]['value']] for a row that is a list: the key is an item
    of the list, used as an index into it. *)
Definition index_of (key : json) : res Z :=
  match key with
  | JInt n => Ok n
  | JBool b => Ok (if b then 1 else 0)%Z
  | _ => Raise TypeError
  end.

Definition list_getitem (items : list json) (key : json) : res json :=
  i ← index_of key;
  let n := Z.of_nat (length items) in
  if decide (- n ≤ i ∧ i < n)%Z
  then match items !! Z.to_nat (if decide (i < 0)%Z then i + n else i)%Z with
       | Some x => Ok x
       | None => Raise IndexError
       end
  else Raise IndexError.

Definition json_value (x : json) : res json :=
  match x with
  | JObject members => getitem members "value"
  | _ => Raise TypeError
  end.

(** The loop over a row that is a list.  It ends without an exception
    on the empty list only ([transform_array_row_raises] below). *)
Definition transform_array_row (items : list json) : res FlatRow :=
  _ ← mapM (λ key, x ← list_getitem items key; json_value x) items;
  Ok ∅.

(** The inner loop on any row: a string row fails at its first
    character, which is no index into a string. *)
Definition transform_row_any (result : row_slot) : res FlatRow :=
  match result with
  | ARow members => transform_members ∅ members
  | RowString EmptyString => Ok ∅
  | RowString (String _ _) => Raise TypeError
  | RowArray items => transform_array_row items
  | RowNotIterable => Raise TypeError
  end.

(** [__transform2dicts] on any value of [bindings]. *)
Definition transform2dicts_any (results : bindings_slot) : res (list FlatRow) :=
  items ← iterate results;
  foldl
    (λ (acc : res (list FlatRow)) row,
       new_results ← acc;
       new_result ← transform_row_any row;
       Ok (new_results ++ [new_result]))
    (Ok []) items.

(** A row as the wire format promises it: every binding has a [value]. *)
Definition well_formed_row (row : RawBinding) : Prop :=
  ∀ key binding, row !! key = Some binding → is_Some (binding !! "value").

#[global] Instance well_formed_row_dec (row : RawBinding) : Decision (well_formed_row row).
Proof.
  unfold well_formed_row.
  change (Decision (map_Forall (λ _ (binding : Binding), is_Some (binding !! "value")) row)).
  apply _.
Defined.

(** ** pandas: cells, Series and DataFrame *)

Record Timestamp := {
  year : Z; month : Z; day : Z; hour : Z; minute : Z; second : Z
}.

(** A value stored in a DataFrame: a Python string, a timestamp or a
    number (the release years, whole numbers that pandas holds as
    integers or, next to NaN, as floats).  A missing value (NaN, NaT) is
    the absence of a cell. *)
Inductive cell :=
| Str (s : string)
| Datetime (t : Timestamp)
| Num (x : Z).

#[global] Instance Timestamp_eq_dec : EqDecision Timestamp.
Proof. solve_decision. Defined.
#[global] Instance cell_eq_dec : EqDecision cell.
Proof. solve_decision. Defined.

(** A column on the default index [0 .. n-1]. *)
Abbreviation Series := (list (option cell)).

(** Rows on the default index; a row has a key for each of its values
    that are not missing.  The order of the columns is not modelled. *)
Record DataFrame := {
  columns : gset string;
  rows : list (gmap string cell)
}.

(** [pd.DataFrame(records)] for a list of dicts: the columns are the
    union of the keys, a key a record lacks is a missing value. *)
Definition DataFrame_of_records (records : list FlatRow) : DataFrame :=
  {| columns := ⋃ ((λ record : FlatRow, dom record) <$> records);
     rows := (λ record : FlatRow, Str <$> record) <$> records |}.

(** [df[column]] *)
Definition df_getitem (df : DataFrame) (column : string) : res Series :=
  if decide (column ∈ columns df)
  then Ok ((.!! column) <$> rows df)
  else Raise (KeyError column).

(** [df[column] = series], for a series on the index of [df]. *)
Definition set_cell (column : string) (row : gmap string cell) (v : option cell)
  : gmap string cell :=
  match v with
  | Some x => <[column := x]> row
  | None => delete column row
  end.

Definition df_setitem (df : DataFrame) (column : string) (series : Series) : DataFrame :=
  {| columns := columns df ∪ {[column]};
     rows := zip_with (set_cell column) (rows df) series |}.

(** [series.dt.year]: NaT gives NaN, a value that is no datetime makes
    the accessor fail. *)
Definition dt_year_cell (v : option cell) : res (option cell) :=
  match v with
  | None => Ok None
  | Some (Datetime t) => Ok (Some (Num (year t)))
  | Some _ => Raise AttributeError
  end.

Definition dt_year (series : Series) : res Series := mapM dt_year_cell series.

(** A datetime column as a Series. *)
Definition datetime_series (values : list (option Timestamp)) : Series :=
  (λ t : option Timestamp, Datetime <$> t) <$> values.

(** [series.dropna()] *)
Definition dropna (series : Series) : list cell := omap id series.

(** [values.astype(int)] on the values of a numeric column; a value
    that is no number is taken to fail. *)
Definition int_of_cell (v : cell) : res Z :=
  match v with
  | Num x => Ok x
  | _ => Raise ValueError
  end.

Definition astype_int (values : list cell) : res (list Z) := mapM int_of_cell values.

(** *** Counting and sorting *)

(** Insertion of [x] in front of the first [y] with [before x y]. *)
Fixpoint insert_by {A} (before : A → A → bool) (x : A) (l : list A) : list A :=
  match l with
  | [] => [x]
  | y :: l' => if before x y then x :: l else y :: insert_by before x l'
  end.

Definition sort_by {A} (before : A → A → bool) (l : list A) : list A :=
  foldr (insert_by before) [] l.

(** The hash-table pass of [value_counts]: one counter per distinct
    value, in the order the values are first met. *)
Fixpoint bump {K} `{EqDecision K} (k : K) (counts : list (K * nat)) : list (K * nat) :=
  match counts with
  | [] => [(k, 1)]
  | (k', n) :: counts' =>
      if decide (k = k') then (k', S n) :: counts' else (k', n) :: bump k counts'
  end.

Definition tally {K} `{EqDecision K} (values : list K) : list (K * nat) :=
  foldl (λ counts k, bump k counts) [] values.

(** [counts.sort_index()] on an integer index. *)
Definition sort_index {V} (counts : list (Z * V)) : list (Z * V) :=
  sort_by (λ x y, bool_decide (x.1 ≤ y.1)%Z) counts.

(** [counts.head(n)] *)
Definition head {A} (n : nat) (l : list A) : list A := take n l.

(** [df.groupby(column).size()] for a numeric column: one group per
    value that is not NaN, the groups sorted by key. *)
Definition groupby_size (df : DataFrame) (column : string) : res (list (Z * nat)) :=
  series ← df_getitem df column;
  keys ← astype_int (dropna series);
  Ok (sort_index (tally keys)).

(** [sns.scatterplot(data=df, x=x, y=y)]: one point per row in which
    neither value is missing; a name that is no column of [df] is
    refused with a [ValueError]. *)
Definition point_of (x y : string) (row : gmap string cell) : option (cell * cell) :=
  vx ← row !! x; vy ← row !! y; Some (vx, vy).

Definition scatterplot (df : DataFrame) (x y : string) : res (list (cell * cell)) :=
  if decide (x ∈ columns df ∧ y ∈ columns df)
  then Ok (omap (point_of x y) (rows df))
  else Raise ValueError.

(** ** The script's effects *)

(** What the script writes with [print]. *)
Inductive output :=
| Text (s : string)
| Table (df : DataFrame).

(** What the script draws: the data handed to each plotting call. *)
Inductive figure :=
| YearBar (counts : list (Z * nat))
| PerformerBar (counts : list (cell * nat))
| PerformerPie (counts : list (cell * nat))
| YearLine (counts : list (Z * nat))
| Scatter (points : list (cell * cell)).

(** The world outside the interpreter: the number of round trips made
    to the endpoint so far, the standard output, the figures shown. *)
Record world := {
  requests : nat;
  stdout : list output;
  figures : list figure
}.

(** A computation that may raise and that acts on the world; the world
    keeps what was done before an exception. *)
Definition Script (A : Type) : Type := world → res A * world.

#[global] Instance Script_ret : MRet Script := λ A a w, (Ok a, w).
#[global] Instance Script_bind : MBind Script := λ A B f m w,
  match m w with
  | (Ok a, w') => f a w'
  | (Raise e, w') => (Raise e, w')
  end.

Definition lift {A} (r : res A) : Script A := λ w, (r, w).

Definition print (o : output) : Script unit := λ w,
  (Ok tt, {| requests := requests w; stdout := stdout w ++ [o]; figures := figures w |}).

Definition raise {A} (e : exn) : Script A := λ w, (Raise e, w).

(** [plt.show()] of the current figure. *)
Definition show (f : figure) : Script unit := λ w,
  (Ok tt, {| requests := requests w; stdout := stdout w; figures := figures w ++ [f] |}).

(** [counts.plot(kind='bar')] followed by [plt.show()]: the bar plot
    of a Series without entries raises [IndexError], and the figure that
    [plt.figure] opened before is never shown. *)
Definition plot_bar {K} (counts : list (K * nat)) (f : figure) : Script unit :=
  match counts with
  | [] => raise IndexError
  | _ :: _ => show f
  end.

(** ** class WikiDataQueryResults *)

Record WikiDataQueryResults := {
  user_agent : string;
  endpoint_url : string;
  query : string
}.

(** The module-level names the script has bound when it ends. *)
Module Globals.
Record t := {
  singers_df : DataFrame;
  songs_df : DataFrame;
  albums_df : DataFrame;
  release_years : list Z;
  performer_album_counts : list (cell * nat);
  album_counts_by_year : list (Z * nat)
}.
End Globals.

(** ** A timestamp parser and an endpoint for the examples *)

Module Sample.

Definition digit_of (c : Ascii.ascii) : option Z :=
  let n := nat_of_ascii c in
  if decide (48 ≤ n ∧ n ≤ 57) then Some (Z.of_nat (n - 48)) else None.

Fixpoint number_of (s : string) (acc : Z) : option Z :=
  match s with
  | EmptyString => Some acc
  | String c s' => d ← digit_of c; number_of s' (10 * acc + d)%Z
  end.

Definition field (s : string) (start len : nat) : option Z :=
  let t := String.substring start len s in
  if decide (String.length t = len) then number_of t 0 else None.

(** [YYYY-MM-DDThh:mm:ssZ], the form in which the endpoint writes
    [xsd:dateTime] values. *)
Definition parse_iso8601 (s : string) : option Timestamp :=
  y ← field s 0 4; mo ← field s 5 2; d ← field s 8 2;
  h ← field s 11 2; mi ← field s 14 2; se ← field s 17 2;
  if decide (String.substring 4 1 s = "-" ∧ String.substring 7 1 s = "-" ∧
             String.substring 10 1 s = "T" ∧ String.substring 13 1 s = ":" ∧
             String.substring 16 1 s = ":" ∧ String.substring 19 2 s = "Z")
  then Some {| year := y; month := mo; day := d;
               hour := h; minute := mi; second := se |}
  else None.

Definition to_datetime (series : Series) : list (option Timestamp) :=
  (λ v, match v with
        | Some (Str s) => parse_iso8601 s
        | Some (Datetime t) => Some t
        | _ => None
        end) <$> series.

(** A binding as the endpoint writes it. *)
Definition literal (value : string) : Binding :=
  {[ "type" := "literal"; "value" := value ]}.

Definition document (bindings : list RawBinding) : Document :=
  {[ "results" := {[ "bindings" := bindings ]} ]}.

(** An endpoint that answers every request alike. *)
Definition endpoint_of (outcome : res Response) : nat → WikiDataQueryResults → res Response :=
  λ _ _, outcome.

Definition request : WikiDataQueryResults :=
  {| user_agent := "WDQS-example Python/3.11";
     endpoint_url := "https://query.wikidata.org/sparql";
     query := "SELECT ?a ?b WHERE { ?a ?p ?b } LIMIT 2" |}.

Definition start : world := {| requests := 0; stdout := []; figures := [] |}.

Definition album (performer date : string) : gmap string cell :=
  {[ "performerLabel" := Str performer; "publicationDate" := Str date ]}.

Definition albums_table (records : list (gmap string cell)) : DataFrame :=
  {| columns := {[ "performerLabel"; "publicationDate" ]}; rows := records |}.

(** A row of the albums query as the endpoint sends it. *)
Definition album_binding (performer date : string) : RawBinding :=
  {[ "performerLabel" := literal performer; "publicationDate" := literal date ]}.

(** Three albums, the second with a date that does not parse. *)
Definition three_albums : DataFrame :=
  albums_table [album "Performer A" "1965-01-01T00:00:00Z";
                album "Performer A" "unknown";
                album "Performer B" "1970-03-01T00:00:00Z"].

(** Albums of 1965, 1965 and 1970. *)
Definition albums_1965_1965_1970 : DataFrame :=
  albums_table [album "Performer A" "1965-01-01T00:00:00Z";
                album "Performer B" "1965-06-15T00:00:00Z";
                album "Performer A" "1970-03-01T00:00:00Z"].

(** Eleven performers with one album each. *)
Definition eleven_performers : list string :=
  ["A"; "B"; "C"; "D"; "E"; "F"; "G"; "H"; "I"; "J"; "K"].

Definition eleven_albums : DataFrame :=
  albums_table ((λ p, album p "1990-01-01T00:00:00Z") <$> eleven_performers).

(** Fifteen performers, the n-th with n albums. *)
Definition fifteen_performers : list (string * nat) :=
  [("P01", 1); ("P02", 2); ("P03", 3); ("P04", 4); ("P05", 5);
   ("P06", 6); ("P07", 7); ("P08", 8); ("P09", 9); ("P10", 10);
   ("P11", 11); ("P12", 12); ("P13", 13); ("P14", 14); ("P15", 15)].

Definition fifteen_albums : DataFrame :=
  albums_table
    (flat_map (λ pn : string * nat, replicate pn.2 (album pn.1 "1990-01-01T00:00:00Z"))
              fifteen_performers).

(** An endpoint that answers each query with the same two albums. *)
Definition two_albums_endpoint : nat → WikiDataQueryResults → res Response :=
  endpoint_of (Ok (shaped (document [album_binding "Performer A" "1965-01-01T00:00:00Z";
                                     album_binding "Performer B" "unknown"]))).

(** Two sorts by descending count: the first leaves counters with the
    same count in the order in which it finds them, the second puts
    them in the opposite order. *)
Definition sort_values : ∀ K : Type, list (K * nat) → list (K * nat) :=
  λ K, sort_by (λ x y, bool_decide (y.2 ≤ x.2)).

Definition sort_values_ties_reversed : ∀ K : Type, list (K * nat) → list (K * nat) :=
  λ K, sort_by (λ x y, bool_decide (y.2 < x.2)).

(** Two performers with one album each. *)
Definition two_albums : DataFrame :=
  albums_table [album "Performer A" "1965-01-01T00:00:00Z";
                album "Performer B" "1970-03-01T00:00:00Z"].

(** An album without a performer label, a table with such an album
    between two albums of Performer A, a table whose only date does not
    parse, and two tables with one dated album that names no performer:
    the first without the column [performerLabel], the second with it. *)
Definition unnamed_album (date : string) : gmap string cell :=
  {[ "publicationDate" := Str date ]}.

Definition albums_with_unnamed : DataFrame :=
  albums_table [album "Performer A" "1965-01-01T00:00:00Z";
                unnamed_album "1966-01-01T00:00:00Z";
                album "Performer A" "1970-03-01T00:00:00Z"].

Definition undated_albums : DataFrame :=
  albums_table [album "Performer A" "unknown"].

Definition dates_only : DataFrame :=
  {| columns := {[ "publicationDate" ]};
     rows := [unnamed_album "1965-01-01T00:00:00Z"] |}.

Definition unnamed_albums : DataFrame :=
  albums_table [unnamed_album "1965-01-01T00:00:00Z"].

(** An endpoint that gives its answers in turn, whatever the request,
    and is unreachable afterwards. *)
Definition scripted (answers : list (res Response))
  : nat → WikiDataQueryResults → res Response :=
  λ n _, default (Raise URLError) (answers !! n).

End Sample.

(** ** The program *)

Section Program.

(** [sys.version_info[0]] and [sys.version_info[1]]. *)
Variable version_info : nat * nat.

(** The remote endpoint: what [self.sparql.query().convert()] does on
    the round trip number [n] (counted from 0) for the request of
    [self]; it returns the decoded response or raises. *)
Variable endpoint : nat → WikiDataQueryResults → res Response.

(** [pd.to_datetime(series, errors='coerce')]: the parsed timestamps on
    the index of [series], NaT where a value does not parse. *)
Variable to_datetime : Series → list (option Timestamp).

(** [counts.sort_values(ascending=False)], the sort inside
    [value_counts]: pandas sorts the counters by descending count and
    decides itself in which order counters with the same count come. *)
Variable sort_values : ∀ K : Type, list (K * nat) → list (K * nat).

(** The three query templates; the program only hands their text to
    the endpoint. *)
Variables query_singers query_songs query_albums : string.

(** [values.value_counts()] on values without NaN: the counters of the
    hash-table pass, sorted by descending count. *)
Definition value_counts {K} `{EqDecision K} (values : list K) : list (K * nat) :=
  sort_values K (tally values).

(** [WikiDataQueryResults.__init__] *)
Definition init (query : string) : WikiDataQueryResults :=
  {| user_agent :=
       "WDQS-example Python/" +:+ pretty version_info.1 +:+ "." +:+ pretty version_info.2;
     endpoint_url := "https://query.wikidata.org/sparql";
     query := query |}.

(** [self.sparql.query().convert()]: one round trip. *)
Definition sparql_query_convert (self : WikiDataQueryResults) : Script Response := λ w,
  (endpoint (requests w) self,
   {| requests := S (requests w); stdout := stdout w; figures := figures w |}).

(** [WikiDataQueryResults._load] *)
Definition _load (self : WikiDataQueryResults) : Script (list FlatRow) :=
  response ← sparql_query_convert self;
  results ← lift (r ← response_getitem response "results"; results_getitem r "bindings");
  lift (transform2dicts_any results).

(** [WikiDataQueryResults.execute_query] *)
Definition execute_query (self : WikiDataQueryResults) : Script DataFrame :=
  query_results ← _load self;
  mret (DataFrame_of_records query_results).

Definition get_wikidata_results (query : string) : Script DataFrame :=
  execute_query (init query).

(** Lines 130 to 132: the two column assignments on [albums_df] and the
    value of [release_years].  The DataFrame returned is [albums_df]
    after the assignments. *)
Definition release_years (albums_df : DataFrame) : res (DataFrame * list Z) :=
  publicationDate ← df_getitem albums_df "publicationDate";
  let albums_df :=
    df_setitem albums_df "publicationDate" (datetime_series (to_datetime publicationDate)) in
  publicationDate ← df_getitem albums_df "publicationDate";
  release_year ← dt_year publicationDate;
  let albums_df := df_setitem albums_df "release_year" release_year in
  release_year ← df_getitem albums_df "release_year";
  years ← astype_int (dropna release_year);
  Ok (albums_df, years).

(** Line 136: [release_years.value_counts().sort_index()] *)
Definition counts_by_year (release_years : list Z) : list (Z * nat) :=
  sort_index (value_counts release_years).

(** Line 145 *)
Definition performer_album_counts (albums_df : DataFrame) : res (list (cell * nat)) :=
  performerLabel ← df_getitem albums_df "performerLabel";
  Ok (value_counts (dropna performerLabel)).

(** Line 163 *)
Definition album_counts_by_year (albums_df : DataFrame) : res (list (Z * nat)) :=
  groupby_size albums_df "release_year".

(** Lines 129 to 181: the statistics and the five charts.  The pie and
    the line chart are drawn from data that a bar chart has drawn
    before them. *)
Definition render (singers_df songs_df albums_df : DataFrame) : Script Globals.t :=
  '(albums_df, years) ← lift (release_years albums_df);
  plot_bar (counts_by_year years) (YearBar (counts_by_year years));;
  counts ← lift (performer_album_counts albums_df);
  plot_bar (head 10 counts) (PerformerBar (head 10 counts));;
  show (PerformerPie (head 10 counts));;
  by_year ← lift (album_counts_by_year albums_df);
  show (YearLine by_year);;
  points ← lift (scatterplot albums_df "performerLabel" "release_year");
  show (Scatter points);;
  mret {| Globals.singers_df := singers_df;
          Globals.songs_df := songs_df;
          Globals.albums_df := albums_df;
          Globals.release_years := years;
          Globals.performer_album_counts := counts;
          Globals.album_counts_by_year := by_year |}.

(** Lines 114 to 127: the three fetches, each printed. *)
Definition fetch : Script (DataFrame * DataFrame * DataFrame) :=
  singers_df ← get_wikidata_results query_singers;
  print (Text "Azerbaijani Retro Singers:");;
  print (Table singers_df);;
  songs_df ← get_wikidata_results query_songs;
  print (Text "
Azerbaijani Retro Songs:");;
  print (Table songs_df);;
  albums_df ← get_wikidata_results query_albums;
  print (Text "
Azerbaijani Retro Albums:");;
  print (Table albums_df);;
  mret (singers_df, songs_df, albums_df).

(** The whole script. *)
Definition main : Script Globals.t :=
  '(singers_df, songs_df, albums_df) ← fetch;
  render singers_df songs_df albums_df.

End Program.

(** ** Vocabulary of the properties *)

(** Whether a computation returned. *)
Definition returned {A} (r : res A) : bool :=
  match r with
  | Ok _ => true
  | Raise _ => false
  end.

(** The world after one more round trip. *)
Definition after_request (w : world) : world :=
  {| requests := S (requests w); stdout := stdout w; figures := figures w |}.

(** The pure part of [execute_query] on a document of the expected
    shape: from the decoded document to the DataFrame. *)
Definition table_of_document (document : Document) : res DataFrame :=
  results ← getitem document "results";
  bindings ← getitem results "bindings";
  query_results ← transform2dicts bindings;
  Ok (DataFrame_of_records query_results).

(** The three captions the script prints. *)
Definition singers_caption : string := "Azerbaijani Retro Singers:".
Definition songs_caption : string := "
Azerbaijani Retro Songs:".
Definition albums_caption : string := "
Azerbaijani Retro Albums:".

(** The same on a response of any shape. *)
Definition table_of_response (response : Response) : res DataFrame :=
  results ← response_getitem response "results";
  bindings ← results_getitem results "bindings";
  query_results ← transform2dicts_any bindings;
  Ok (DataFrame_of_records query_results).

(** What [execute_query] returns on the round trip number [n]. *)
Definition answer (endpoint : nat → WikiDataQueryResults → res Response)
    (n : nat) (self : WikiDataQueryResults) : res DataFrame :=
  endpoint n self ≫= table_of_response.

(** The name of the Python class of an exception. *)
Definition class_name (e : exn) : string :=
  match e with
  | URLError => "URLError"
  | HTTPError _ => "HTTPError"
  | QueryBadFormed => "QueryBadFormed"
  | EndPointNotFound => "EndPointNotFound"
  | Unauthorized => "Unauthorized"
  | URITooLong => "URITooLong"
  | EndPointInternalError => "EndPointInternalError"
  | JSONDecodeError => "JSONDecodeError"
  | OtherError class => class
  | KeyError _ => "KeyError"
  | TypeError => "TypeError"
  | IndexError => "IndexError"
  | AttributeError => "AttributeError"
  | ValueError => "ValueError"
  end.

(** A document of the shape the code reads: [results.bindings] is there
    and every binding of every row has a [value]. *)
Definition well_formed_document (document : Document) : Prop :=
  ∃ results bindings,
    document !! "results" = Some results ∧
    results !! "bindings" = Some bindings ∧
    Forall well_formed_row bindings.

(** A member of a row that is a binding with a [value]. *)
Definition has_value (member : string * binding_slot) : Prop :=
  ∃ binding value, member.2 = ABinding binding ∧ binding !! "value" = Some value.

(** A round trip that failed: the client library raised (transport
    failure, error status of the endpoint, undecodable body) or the
    response is no document of the shape above. *)
Definition failed_round_trip (outcome : res Response) : Prop :=
  match outcome with
  | Raise _ => True
  | Ok response =>
      ¬ ∃ document, response = shaped document ∧ well_formed_document document
  end.

(** The distinct values of a list in the order of their first
    occurrence, and the number of occurrences of a value. *)
Fixpoint first_seen {K} `{EqDecision K} (values : list K) : list K :=
  match values with
  | [] => []
  | x :: values' => x :: filter (λ y, y ≠ x) (first_seen values')
  end.

Definition occurrences {K} `{EqDecision K} (k : K) (values : list K) : nat :=
  length (filter (λ y, y = k) values).

(** The performer labels of the albums table, row by row, without the
    rows that have none. *)
Definition performer_labels (albums_df : DataFrame) : list cell :=
  dropna ((.!! "performerLabel") <$> rows albums_df).

(** The number of rows of the albums table that name a performer, and
    the number of rows that have a performer label at all. *)
Definition albums_of (performer : cell) (albums_df : DataFrame) : nat :=
  length (filter (λ row : gmap string cell, row !! "performerLabel" = Some performer)
                 (rows albums_df)).

Definition labelled_rows (albums_df : DataFrame) : nat :=
  length (filter (λ row : gmap string cell, is_Some (row !! "performerLabel"))
                 (rows albums_df)).

(** The index of the first row that names a performer. *)
Definition first_row (performer : cell) (albums_df : DataFrame) : option nat :=
  fst <$> list_find (λ row : gmap string cell, row !! "performerLabel" = Some performer)
                    (rows albums_df).

(** What the sort inside [value_counts] is known to do: it reorders the
    counters, and the counts come out in descending order. *)
Definition sorts_descending (sort_values : ∀ K : Type, list (K * nat) → list (K * nat))
  : Prop :=
  ∀ (K : Type) (counts : list (K * nat)),
    sort_values K counts ≡ₚ counts ∧
    StronglySorted (λ x y, y.2 ≤ x.2) (sort_values K counts).

(** What the spec promises of performers with equal counts: in the
    top-10 view they come in the order in which the table first names
    them. *)
Definition ties_in_first_seen_order
    (sort_values : ∀ K : Type, list (K * nat) → list (K * nat))
    (albums_df : DataFrame) : Prop :=
  ∀ counts i j p q n,
    performer_album_counts sort_values albums_df = Ok counts →
    head 10 counts !! i = Some (p, n) →
    head 10 counts !! j = Some (q, n) →
    i < j →
    ∃ a b, first_row p albums_df = Some a ∧ first_row q albums_df = Some b ∧ a < b.

(** The publication dates of the albums table, row by row. *)
Definition publication_dates (albums_df : DataFrame) : Series :=
  (.!! "publicationDate") <$> rows albums_df.

(** Some date of the table parses; some row of the table names a
    performer. *)
Definition some_date_parses (to_datetime : Series → list (option Timestamp))
    (albums_df : DataFrame) : Prop :=
  ∃ i t, to_datetime (publication_dates albums_df) !! i = Some (Some t).

Definition some_performer_named (albums_df : DataFrame) : Prop :=
  ∃ i row performer,
    rows albums_df !! i = Some row ∧ row !! "performerLabel" = Some performer.

(** The years of parsed dates: as the column [release_year], and as the
    list of the years that are not missing. *)
Definition year_series (parsed : list (option Timestamp)) : Series :=
  (λ t : option Timestamp, (λ d, Num (year d)) <$> t) <$> parsed.

Definition parsed_years (parsed : list (option Timestamp)) : list Z :=
  omap (λ t : option Timestamp, year <$> t) parsed.

(** The albums table after the two column assignments of lines 130
    and 131. *)
Definition with_release_year (to_datetime : Series → list (option Timestamp))
    (albums_df : DataFrame) : DataFrame :=
  let parsed := to_datetime (publication_dates albums_df) in
  df_setitem
    (df_setitem albums_df "publicationDate" (datetime_series parsed))
    "release_year" (year_series parsed).

(** What the spec promises of a failing [execute_query]: one error
    kind, whatever made the round trip fail. *)
Definition dedicated_error_kind (QueryExecutionError : string) : Prop :=
  ∀ endpoint self w,
    failed_round_trip (endpoint (requests w) self) →
    ∃ e, (execute_query endpoint self w).1 = Raise e ∧
         class_name e = QueryExecutionError.

(** What the spec promises of the scatter plot: only performers of the
    top-10 view are plotted. *)
Definition scatter_restricted_to_top10 (to_datetime : Series → list (option Timestamp))
    (sort_values : ∀ K : Type, list (K * nat) → list (K * nat))
    (albums_df : DataFrame) : Prop :=
  ∀ albums_df' years counts points,
    release_years to_datetime albums_df = Ok (albums_df', years) →
    performer_album_counts sort_values albums_df' = Ok counts →
    scatterplot albums_df' "performerLabel" "release_year" = Ok points →
    ∀ point, point ∈ points → point.1 ∈ (head 10 counts).*1.

(** What the spec promises of the albums table: at the end of a run it
    is the table the fetch returned. *)
Definition albums_table_unchanged (version_info : nat * nat)
    (endpoint : nat → WikiDataQueryResults → res Response)
    (to_datetime : Series → list (option Timestamp))
    (sort_values : ∀ K : Type, list (K * nat) → list (K * nat))
    (query_singers query_songs query_albums : string) : Prop :=
  ∀ w singers_df songs_df albums_df w1 g w',
    fetch version_info endpoint query_singers query_songs query_albums w
      = (Ok (singers_df, songs_df, albums_df), w1) →
    main version_info endpoint to_datetime sort_values
      query_singers query_songs query_albums w
      = (Ok g, w') →
    Globals.albums_df g = albums_df.

(** * Properties *)

(** ** The result monad *)

Lemma mapM_res_Ok {A B} (f : A → res B) (l : list A) (k : list B) :
  mapM f l = Ok k ↔ Forall2 (λ x y, f x = Ok y) l k.
Proof.
  revert k. induction l as [|x l IH]; intros k; simpl.
  - split.
    + intros [= <-]. constructor.
    + by inversion 1.
  - destruct (f x) as [y|e] eqn:Hfx; simpl.
    + destruct (mapM f l) as [k'|e] eqn:Hl; simpl.
      * split.
        -- intros [= <-]. constructor; [done|]. by apply IH.
        -- inversion 1 as [|? y' ? k'' Hy Hk]; subst.
           apply IH in Hk. unfold mret, res_ret. congruence.
      * split; [done|]. inversion 1 as [|? y' ? k'' Hy Hk]; subst.
        apply IH in Hk. congruence.
    + split; [done|]. inversion 1; congruence.
Qed.

Lemma mapM_res_Raise {A B} (f : A → res B) (l : list A) (e : exn) :
  mapM f l = Raise e → ∃ x, x ∈ l ∧ f x = Raise e.
Proof.
  induction l as [|x l IH]; simpl; [done|].
  destruct (f x) as [y|e'] eqn:Hfx; simpl.
  - destruct (mapM f l) as [k'|e'] eqn:Hl; simpl; [done|].
    intros [= ->]. destruct IH as (x' & ? & ?); [done|].
    exists x'. split; [by right|done].
  - intros [= ->]. exists x. split; [by left|done].
Qed.

Lemma mapM_res_app {A B} (f : A → res B) (l1 l2 : list A) :
  mapM f (l1 ++ l2) =
  k1 ← mapM f l1; k2 ← mapM f l2; Ok (k1 ++ k2).
Proof.
  induction l1 as [|x l1 IH]; simpl.
  - by destruct (mapM f l2).
  - destruct (f x) as [y|e]; simpl; [|done]. rewrite IH.
    destruct (mapM f l1) as [k1|e]; simpl; [|done].
    by destruct (mapM f l2).
Qed.

(** The first item that fails decides. *)
Lemma mapM_res_first_failure {A B} (f : A → res B) (before after : list A) (x : A)
    (e : exn) :
  Forall (λ y, returned (f y) = true) before →
  f x = Raise e →
  mapM f (before ++ x :: after) = Raise e.
Proof.
  intros Hbefore Hx. induction Hbefore as [|y before Hy _ IH]; simpl.
  - by rewrite Hx.
  - destruct (f y) as [z|]; [|done]. simpl. by rewrite IH.
Qed.

(** A loop that appends one result per item is the item-wise map. *)
Lemma foldl_append_mapM {A B} (f : A → res B) (l : list A) :
  foldl (λ (acc : res (list B)) x, rs ← acc; r ← f x; Ok (rs ++ [r])) (Ok []) l =
  mapM f l.
Proof.
  assert (∀ e, foldl (λ (acc : res (list B)) x, rs ← acc; r ← f x; Ok (rs ++ [r]))
                 (Raise e) l = Raise e) as Hraise.
  { intros e. induction l as [|x l IH]; simpl; [done|apply IH]. }
  assert (∀ done_items,
            foldl (λ (acc : res (list B)) x, rs ← acc; r ← f x; Ok (rs ++ [r]))
              (Ok done_items) l =
            ks ← mapM f l; Ok (done_items ++ ks)) as Hloop.
  { clear Hraise. induction l as [|x l IH]; intros done_items; simpl.
    - by rewrite app_nil_r.
    - destruct (f x) as [y|e]; simpl.
      + rewrite IH. destruct (mapM f l); simpl; [|done]. by rewrite <- app_assoc.
      + clear IH. induction l as [|x' l IH]; simpl; [done|apply IH]. }
  rewrite Hloop. by destruct (mapM f l).
Qed.

(** ** Flattening *)

Lemma transform_row_insert key binding (row : RawBinding) :
  row !! key = None →
  map_first_key (<[key := binding]> row) key →
  transform_row (<[key := binding]> row) =
    new_result ← transform_row row;
    value ← getitem binding "value";
    Ok (<[key := value]> new_result).
Proof.
  intros Hfresh Hfirst. unfold transform_row.
  by rewrite map_fold_insert_first_key.
Qed.

Lemma transform_row_spec (row : RawBinding) :
  well_formed_row row →
  ∃ flat, transform_row row = Ok flat ∧
          ∀ key, flat !! key = row !! key ≫= (.!! "value").
Proof.
  unfold well_formed_row.
  induction row as [|key binding row Hfresh Hfirst IH] using map_first_key_ind.
  - intros _. exists ∅. split; [done|].
    intros key. by rewrite !lookup_empty.
  - intros Hwf. rewrite transform_row_insert by done.
    destruct IH as (flat & -> & Hflat).
    { intros k b Hk. apply (Hwf k b).
      rewrite lookup_insert_ne; [done|]. intros ->. congruence. }
    destruct (Hwf key binding) as [value Hvalue]; [by rewrite lookup_insert_eq|].
    exists (<[key := value]> flat). split.
    + simpl. unfold getitem. by rewrite Hvalue.
    + intros k. destruct (decide (key = k)) as [->|Hne].
      * by rewrite !lookup_insert_eq.
      * by rewrite !lookup_insert_ne.
Qed.

(** The only way a row fails: a binding without [value]. *)
Lemma transform_row_Raise (row : RawBinding) (e : exn) :
  transform_row row = Raise e →
  e = KeyError "value" ∧ ¬ well_formed_row row.
Proof.
  unfold well_formed_row.
  induction row as [|key binding row Hfresh Hfirst IH] using map_first_key_ind.
  - done.
  - rewrite transform_row_insert by done.
    destruct (transform_row row) as [flat|e'] eqn:Hrow; simpl.
    + unfold getitem. destruct (binding !! "value") as [value|] eqn:Hvalue; simpl; [done|].
      intros [= <-]. split; [done|]. intros Hwf.
      destruct (Hwf key binding) as [? ?]; [by rewrite lookup_insert_eq|congruence].
    + intros [= ->]. destruct IH as [-> Hnwf]; [done|]. split; [done|].
      intros Hwf. apply Hnwf. intros k b Hk. apply (Hwf k b).
      rewrite lookup_insert_ne; [done|]. intros ->. congruence.
Qed.

Lemma transform_row_Ok (row : RawBinding) (flat : FlatRow) :
  transform_row row = Ok flat →
  well_formed_row row ∧
  dom flat = dom row ∧
  ∀ key, flat !! key = row !! key ≫= (.!! "value").
Proof.
  intros Hrow.
  assert (well_formed_row row) as Hwf.
  { intros key binding Hkey.
    destruct (binding !! "value") eqn:Hvalue; [by eauto|].
    exfalso. revert flat Hrow Hkey.
    induction row as [|k b row Hfresh Hfirst IH] using map_first_key_ind; [done|].
    intros flat. rewrite transform_row_insert by done.
    destruct (transform_row row) as [flat'|]; simpl; [|done].
    unfold getitem. destruct (b !! "value") eqn:Hb; simpl; [|done].
    intros _ Hkey. destruct (decide (k = key)) as [->|Hne].
    - rewrite lookup_insert_eq in Hkey. congruence.
    - rewrite lookup_insert_ne in Hkey by done. by eapply IH. }
  split; [done|].
  destruct (transform_row_spec row Hwf) as (flat' & Hrow' & Hflat).
  assert (flat' = flat) as -> by congruence.
  split; [|done].
  apply set_eq. intros key. rewrite !elem_of_dom, Hflat.
  destruct (row !! key) as [binding|] eqn:Hkey; simpl.
  - split; [by eauto|]. intros _. by apply (Hwf key).
  - split; by intros [? ?].
Qed.

Lemma transform2dicts_Raise_foldl (results : list RawBinding) (e : exn) :
  foldl
    (λ (acc : res (list FlatRow)) row,
       new_results ← acc;
       new_result ← transform_row row;
       Ok (new_results ++ [new_result]))
    (Raise e) results = Raise e.
Proof. induction results as [|row results IH]; simpl; [done|apply IH]. Qed.

Lemma transform2dicts_foldl (results : list RawBinding) (done_rows : list FlatRow) :
  foldl
    (λ (acc : res (list FlatRow)) row,
       new_results ← acc;
       new_result ← transform_row row;
       Ok (new_results ++ [new_result]))
    (Ok done_rows) results =
  flats ← mapM transform_row results; Ok (done_rows ++ flats).
Proof.
  revert done_rows. induction results as [|row results IH]; intros done_rows; simpl.
  - by rewrite app_nil_r.
  - destruct (transform_row row) as [flat|e]; simpl.
    + rewrite IH. destruct (mapM transform_row results); simpl; [|done].
      by rewrite <- app_assoc.
    + apply transform2dicts_Raise_foldl.
Qed.

(** The two loops compute the row-wise map. *)
Lemma transform2dicts_mapM (results : list RawBinding) :
  transform2dicts results = mapM transform_row results.
Proof.
  unfold transform2dicts. rewrite transform2dicts_foldl.
  by destruct (mapM transform_row results).
Qed.

Lemma transform2dicts_Ok (results : list RawBinding) (flats : list FlatRow) :
  transform2dicts results = Ok flats ↔
  Forall2 (λ row flat, transform_row row = Ok flat) results flats.
Proof. rewrite transform2dicts_mapM. apply mapM_res_Ok. Qed.

Lemma transform2dicts_total (results : list RawBinding) :
  Forall well_formed_row results →
  ∃ flats, transform2dicts results = Ok flats.
Proof.
  intros Hwf. destruct (transform2dicts results) as [flats|e] eqn:Hres; [by eexists|].
  rewrite transform2dicts_mapM in Hres.
  apply mapM_res_Raise in Hres as (row & Hin & Hrow).
  apply transform_row_Raise in Hrow as [_ Hnwf].
  rewrite Forall_forall in Hwf. destruct Hnwf. by apply Hwf.
Qed.

Lemma transform2dicts_Raise (results : list RawBinding) (e : exn) :
  transform2dicts results = Raise e →
  e = KeyError "value" ∧ ¬ Forall well_formed_row results.
Proof.
  intros Hres. rewrite transform2dicts_mapM in Hres.
  apply mapM_res_Raise in Hres as (row & Hin & Hrow).
  apply transform_row_Raise in Hrow as [-> Hnwf]. split; [done|].
  rewrite Forall_forall. intros Hwf. apply Hnwf. by apply Hwf.
Qed.

(** *** Rows of any shape *)

Lemma slot_value_Ok (slot : binding_slot) (value : string) :
  slot_value slot = Ok value ↔
  ∃ binding, slot = ABinding binding ∧ binding !! "value" = Some value.
Proof.
  destruct slot as [binding|]; simpl; unfold getitem.
  - destruct (binding !! "value") as [v|] eqn:Hv.
    + split; [intros [= <-]; by eauto|]. intros (b & [= <-] & Hb). congruence.
    + split; [done|]. intros (b & [= <-] & Hb). congruence.
  - split; [done|]. by intros (b & ? & _).
Qed.

Lemma has_value_slot_value (member : string * binding_slot) :
  has_value member ↔ returned (slot_value member.2) = true.
Proof.
  unfold has_value. split.
  - intros (binding & value & Hslot & Hvalue).
    assert (slot_value member.2 = Ok value) as ->; [|done].
    apply slot_value_Ok. by eauto.
  - destruct (slot_value member.2) as [value|] eqn:Hslot; [|done].
    intros _. apply slot_value_Ok in Hslot as (binding & ? & ?). by eauto.
Qed.

(** In a row that is a dict the first member that fails decides. *)
Lemma transform_members_first_failure (acc : FlatRow)
    (before after : list (string * binding_slot)) (key : string) (slot : binding_slot)
    (e : exn) :
  Forall has_value before →
  slot_value slot = Raise e →
  transform_members acc (before ++ (key, slot) :: after) = Raise e.
Proof.
  intros Hbefore Hslot. revert acc.
  induction Hbefore as [|[k s] before Hks _ IH]; intros acc; simpl.
  - by rewrite Hslot.
  - apply has_value_slot_value in Hks. simpl in Hks.
    destruct (slot_value s) as [value|]; [|done]. simpl. apply IH.
Qed.

Lemma transform_members_Raise (acc : FlatRow) (members : list (string * binding_slot))
    (e : exn) :
  transform_members acc members = Raise e →
  ∃ key slot, (key, slot) ∈ members ∧ slot_value slot = Raise e.
Proof.
  revert acc. induction members as [|[k s] members IH]; intros acc; simpl; [done|].
  destruct (slot_value s) as [value|e'] eqn:Hs; simpl.
  - intros Hrest. destruct (IH _ Hrest) as (key & slot & Hin & Hslot).
    exists key, slot. split; [by right|done].
  - intros [= ->]. exists k, s. split; [by left|done].
Qed.

Lemma transform_members_Ok (acc : FlatRow) (members : list (string * binding_slot))
    (flat : FlatRow) :
  transform_members acc members = Ok flat →
  Forall has_value members.
Proof.
  revert acc. induction members as [|[k s] members IH]; intros acc; simpl; [by constructor|].
  destruct (slot_value s) as [value|] eqn:Hs; simpl; [|done].
  intros Hrest. constructor; [|by eapply IH].
  apply has_value_slot_value. simpl. by rewrite Hs.
Qed.

Lemma transform_members_total (acc : FlatRow) (members : list (string * binding_slot)) :
  Forall has_value members →
  ∃ flat, transform_members acc members = Ok flat.
Proof.
  intros Hall. destruct (transform_members acc members) as [flat|e] eqn:Hres; [by eauto|].
  apply transform_members_Raise in Hres as (key & slot & Hin & Hslot).
  rewrite Forall_forall in Hall. apply Hall, has_value_slot_value in Hin.
  simpl in Hin. by rewrite Hslot in Hin.
Qed.

Lemma transform_members_lookup (acc : FlatRow) (members : list (string * binding_slot))
    (flat : FlatRow) :
  NoDup members.*1 →
  transform_members acc members = Ok flat →
  ∀ key, flat !! key =
         match (list_to_map members : gmap string binding_slot) !! key with
         | Some slot => match slot_value slot with Ok value => Some value | Raise _ => None end
         | None => acc !! key
         end.
Proof.
  revert acc. induction members as [|[k s] members IH]; intros acc Hnodup; simpl.
  - intros [= ->] key. by rewrite lookup_empty.
  - apply NoDup_cons in Hnodup as [Hfresh Hnodup].
    destruct (slot_value s) as [value|] eqn:Hs; simpl; [|done].
    intros Hrest key. rewrite (IH _ Hnodup Hrest key).
    destruct (decide (k = key)) as [<-|Hne].
    + rewrite (not_elem_of_list_to_map_1 _ k Hfresh), !lookup_insert_eq. by rewrite Hs.
    + by rewrite !(lookup_insert_ne _ k key).
Qed.

Lemma elem_of_shaped_row_members (row : RawBinding) (key : string) (slot : binding_slot) :
  (key, slot) ∈ map_to_list (ABinding <$> row) ↔
  ∃ binding, row !! key = Some binding ∧ slot = ABinding binding.
Proof.
  rewrite elem_of_map_to_list, lookup_fmap.
  destruct (row !! key) as [binding|]; simpl.
  - split; [intros [= <-]; by eauto|]. by intros (b & [= <-] & ->).
  - split; [done|]. by intros (b & ? & _).
Qed.

(** On a row of the expected shape the loop is [transform_row]. *)
Lemma transform_row_any_shaped (row : RawBinding) :
  transform_row_any (shaped_row row) = transform_row row.
Proof.
  unfold shaped_row. simpl.
  destruct (transform_row row) as [flat|e] eqn:Hrow.
  - destruct (transform_row_Ok _ _ Hrow) as (Hwf & _ & Hflat).
    destruct (transform_members_total ∅ (map_to_list (ABinding <$> row))) as [flat' Hflat'].
    { apply Forall_forall. intros [key slot] Hin.
      apply elem_of_shaped_row_members in Hin as (binding & Hkey & ->).
      destruct (Hwf key binding Hkey) as [value Hvalue]. by exists binding, value. }
    rewrite Hflat'. f_equal. apply map_eq. intros key.
    rewrite (transform_members_lookup _ _ _ (NoDup_fst_map_to_list _) Hflat' key).
    rewrite list_to_map_to_list, lookup_fmap, Hflat, lookup_empty.
    destruct (row !! key) as [binding|]; simpl; [|done].
    unfold getitem. by destruct (binding !! "value").
  - apply transform_row_Raise in Hrow as [-> Hnwf].
    destruct (transform_members ∅ (map_to_list (ABinding <$> row))) as [flat'|e'] eqn:Hres.
    + destruct Hnwf. intros key binding Hkey.
      apply transform_members_Ok in Hres. rewrite Forall_forall in Hres.
      destruct (Hres (key, ABinding binding)) as (b & value & [= <-] & Hvalue); [|by eauto].
      apply elem_of_shaped_row_members. by eauto.
    + apply transform_members_Raise in Hres as (key & slot & Hin & Hslot).
      apply elem_of_shaped_row_members in Hin as (binding & _ & ->).
      simpl in Hslot. unfold getitem in Hslot.
      destruct (binding !! "value"); [done|]. congruence.
Qed.

Lemma transform2dicts_any_mapM (results : bindings_slot) :
  transform2dicts_any results = items ← iterate results; mapM transform_row_any items.
Proof.
  unfold transform2dicts_any. destruct (iterate results) as [items|]; simpl; [|done].
  apply foldl_append_mapM.
Qed.

(** On rows of the expected shape the loops are [transform2dicts]. *)
Lemma transform2dicts_any_shaped (results : list RawBinding) :
  transform2dicts_any (Rows (shaped_row <$> results)) = transform2dicts results.
Proof.
  rewrite transform2dicts_any_mapM, transform2dicts_mapM.
  change (mapM transform_row_any (shaped_row <$> results) = mapM transform_row results).
  induction results as [|row results IH]; [done|].
  rewrite fmap_cons. cbn [mapM]. by rewrite transform_row_any_shaped, IH.
Qed.

(** A row that is a nonempty list always fails: an item that can be
    used as an index selects an item, and the selected item, to have a
    [value], is an object, which in its turn is no index. *)
Lemma list_getitem_Ok (items : list json) (key x : json) :
  list_getitem items key = Ok x → x ∈ items.
Proof.
  unfold list_getitem. destruct (index_of key) as [i|]; simpl; [|done].
  destruct (decide _); [|done].
  destruct (items !! _) as [y|] eqn:Hy; [|done].
  intros [= <-]. by eapply list_elem_of_lookup_2.
Qed.

Lemma array_step_Raise (items : list json) (key : json) (e : exn) :
  (x ← list_getitem items key; json_value x) = Raise e →
  e ∈ [TypeError; IndexError; KeyError "value"].
Proof.
  unfold list_getitem.
  destruct key as [|b|n| |s|l|m]; simpl; try (intros [= <-]; set_solver).
  all: destruct (decide _); simpl; [|intros [= <-]; set_solver].
  all: destruct (items !! _) as [x|]; simpl; [|intros [= <-]; set_solver].
  all: destruct x as [|b'|n'| |s'|l'|m']; simpl; try (intros [= <-]; set_solver).
  all: unfold getitem; destruct (_ !! "value"); [done|intros [= <-]; set_solver].
Qed.

Lemma transform_array_row_raises (items : list json) :
  items ≠ [] →
  ∃ e, transform_array_row items = Raise e ∧
       e ∈ [TypeError; IndexError; KeyError "value"].
Proof.
  intros Hne. unfold transform_array_row.
  destruct (mapM _ items) as [values|e] eqn:Hloop; simpl.
  - exfalso. apply mapM_res_Ok in Hloop.
    destruct items as [|key items']; [done|].
    pose proof Hloop as Hall.
    apply Forall2_cons_inv_l in Hloop as (v & values' & Hkey & Hrest & ->).
    destruct (list_getitem (key :: items') key) as [x|] eqn:Hx; simpl in Hkey; [|done].
    destruct x as [| | | | | |members]; try done.
    apply list_getitem_Ok in Hx.
    apply list_elem_of_lookup in Hx as [i Hi].
    destruct (Forall2_lookup_l _ _ _ _ _ Hall Hi) as (v' & _ & Hstep).
    done.
  - exists e. split; [done|].
    apply mapM_res_Raise in Hloop as (key & _ & Hkey).
    by eapply array_step_Raise.
Qed.

(** C1. Flattening correctness: a row whose bindings all carry a
    [value] is flattened to a FlatRow that has exactly the keys of the
    row and maps each of them to the nested [value]; every entry of the
    FlatRow is the [value] member of the binding of its key, so no other
    member ([type], [datatype], ...) appears in it.  The loops of
    [_load] on the row as it stands in a response give the same
    FlatRow. *)
Theorem flattening_correct (row : RawBinding) :
  well_formed_row row →
  ∃ flat : FlatRow,
    transform2dicts [row] = Ok [flat] ∧
    transform2dicts_any (Rows [shaped_row row]) = Ok [flat] ∧
    dom flat = dom row ∧
    (∀ key binding, row !! key = Some binding → flat !! key = binding !! "value") ∧
    (∀ key v, flat !! key = Some v →
       ∃ binding, row !! key = Some binding ∧ binding !! "value" = Some v).
Proof.
  intros Hwf. destruct (transform_row_spec row Hwf) as (flat & Hrow & Hflat).
  assert (transform2dicts [row] = Ok [flat]) as Hflats.
  { rewrite transform2dicts_mapM. simpl. by rewrite Hrow. }
  exists flat. split; [done|]. split; [|split; [|split]].
  - by rewrite <- Hflats, <- transform2dicts_any_shaped.
  - by apply transform_row_Ok.
  - intros key binding Hkey. by rewrite Hflat, Hkey.
  - intros key v. rewrite Hflat.
    destruct (row !! key) as [binding|]; simpl; [by eauto|done].
Qed.

(** C4. Row count and order: the bindings of a response are flattened
    to as many FlatRows, the i-th FlatRow is the flattening of the i-th
    row, and the DataFrame built from them has these rows in this
    order.  It holds for every list of rows, the empty one included, and
    the loops of [_load] on the rows as they stand in a response give
    the same FlatRows. *)
Theorem row_count_and_order_preserved (results : list RawBinding) :
  Forall well_formed_row results →
  ∃ flats : list FlatRow,
    transform2dicts results = Ok flats ∧
    transform2dicts_any (Rows (shaped_row <$> results)) = Ok flats ∧
    length flats = length results ∧
    length (rows (DataFrame_of_records flats)) = length results ∧
    ∀ i row, results !! i = Some row →
      ∃ flat, flats !! i = Some flat ∧
              transform_row row = Ok flat ∧
              (∀ key, flat !! key = row !! key ≫= (.!! "value")) ∧
              rows (DataFrame_of_records flats) !! i = Some (Str <$> flat).
Proof.
  intros Hwf. destruct (transform2dicts_total results Hwf) as [flats Hflats].
  exists flats. split; [done|].
  split; [by rewrite transform2dicts_any_shaped|].
  apply transform2dicts_Ok in Hflats.
  pose proof (Forall2_length _ _ _ Hflats) as Hlen.
  split; [done|]. split; [simpl; by rewrite length_fmap|].
  intros i row Hi.
  destruct (Forall2_lookup_l _ _ _ _ _ Hflats Hi) as (flat & Hflat & Hrow).
  exists flat. split; [done|]. split; [done|]. split.
  - rewrite Forall_forall in Hwf.
    destruct (transform_row_spec row) as (flat' & Hrow' & Hspec).
    { apply Hwf. by eapply list_elem_of_lookup_2. }
    congruence.
  - simpl. by rewrite list_lookup_fmap, Hflat.
Qed.

(** ** The fetcher *)

(** On a document of the expected shape the pure part of
    [execute_query] is [table_of_document]. *)
Lemma table_of_response_shaped (document : Document) :
  table_of_response (shaped document) = table_of_document document.
Proof.
  unfold table_of_response, table_of_document, shaped. simpl.
  unfold getitem. rewrite lookup_fmap.
  destruct (document !! "results") as [results|]; simpl; [|done].
  unfold getitem. rewrite lookup_fmap.
  destruct (results !! "bindings") as [bindings|]; simpl; [|done].
  fold (shaped_row <$> bindings).
  by rewrite transform2dicts_any_shaped.
Qed.

(** The table of a response, level by level. *)
Lemma table_of_response_bindings (members : gmap string results_slot)
    (results : gmap string bindings_slot) (bindings : bindings_slot) :
  members !! "results" = Some (ResultsObject results) →
  results !! "bindings" = Some bindings →
  table_of_response (TopObject members) =
  items ← iterate bindings;
  flats ← mapM transform_row_any items;
  Ok (DataFrame_of_records flats).
Proof.
  intros Hresults Hbindings. unfold table_of_response. simpl.
  unfold getitem. rewrite Hresults. simpl. unfold getitem. rewrite Hbindings. simpl.
  rewrite transform2dicts_any_mapM. by destruct (iterate bindings).
Qed.

Lemma table_of_response_Ok (response : Response) (df : DataFrame) :
  table_of_response response = Ok df →
  ∃ members results bindings items flats,
    response = TopObject members ∧
    members !! "results" = Some (ResultsObject results) ∧
    results !! "bindings" = Some bindings ∧
    iterate bindings = Ok items ∧
    Forall2 (λ row flat, transform_row_any row = Ok flat) items flats ∧
    df = DataFrame_of_records flats.
Proof.
  destruct response as [members|]; [|done].
  destruct (members !! "results") as [[results|]|] eqn:Hresults.
  2,3: by unfold table_of_response; simpl; unfold getitem; rewrite Hresults.
  destruct (results !! "bindings") as [bindings|] eqn:Hbindings.
  2:{ unfold table_of_response. simpl. unfold getitem. rewrite Hresults. simpl.
      unfold getitem. by rewrite Hbindings. }
  rewrite (table_of_response_bindings _ _ _ Hresults Hbindings).
  destruct (iterate bindings) as [items|] eqn:Hitems; simpl; [|done].
  destruct (mapM transform_row_any items) as [flats|] eqn:Hflats; simpl; [|done].
  intros [= <-]. exists members, results, bindings, items, flats.
  split_and!; try done. by apply mapM_res_Ok.
Qed.

Section Fetcher.

Context (endpoint : nat → WikiDataQueryResults → res Response).

Lemma execute_query_eq (self : WikiDataQueryResults) (w : world) :
  execute_query endpoint self w =
  (endpoint (requests w) self ≫= table_of_response, after_request w).
Proof.
  unfold execute_query, _load, sparql_query_convert, table_of_response, after_request.
  unfold mbind at 1 2 3. unfold Script_bind, lift. simpl.
  destruct (endpoint (requests w) self) as [response|e]; simpl; [|done].
  destruct (response_getitem response "results") as [results|e]; simpl; [|done].
  destruct (results_getitem results "bindings") as [bindings|e]; simpl; [|done].
  by destruct (transform2dicts_any bindings).
Qed.

Lemma execute_query_shaped (self : WikiDataQueryResults) (w : world)
    (document : Document) :
  endpoint (requests w) self = Ok (shaped document) →
  execute_query endpoint self w = (table_of_document document, after_request w).
Proof.
  intros Hdoc. rewrite execute_query_eq, Hdoc. simpl.
  by rewrite table_of_response_shaped.
Qed.

(** C2, as the code has it. Failure of [execute_query]: it makes
    exactly one round trip whatever the outcome and prints and draws
    nothing.  An exception of the client library is passed on unchanged.
    Of the response, the first subscript or loop that fails decides: a
    response that is no object gives a [TypeError], one without
    [results] the [KeyError] of [results]; a [results] that is no object
    a [TypeError], one without [bindings] the [KeyError] of [bindings]; a
    [bindings] that cannot be iterated a [TypeError]; then the first row
    that fails gives its exception.  The rows of a [bindings] that is an
    object are its keys, those of a string its characters: the first
    one that is not empty gives a [TypeError].  A row fails with a
    [TypeError] when it cannot be iterated or is a nonempty string, with
    a [TypeError], an [IndexError] or the [KeyError] of [value] when it
    is a nonempty list, and when it is an object with the exception of
    its first member that fails: a [TypeError] for a member that is no
    object, the [KeyError] of [value] for a binding without [value].
    Not every response of another shape fails: an empty string or an
    empty object as [bindings] is read as no rows, an empty string or an
    empty list as a row is read as a row without values.  A DataFrame is
    returned only when no step fails, and then it is built from all the
    rows. *)
Theorem execute_query_failure_mode (self : WikiDataQueryResults) (w : world) :
  (execute_query endpoint self w).2 = after_request w ∧
  (∀ e, endpoint (requests w) self = Raise e →
        (execute_query endpoint self w).1 = Raise e) ∧
  (endpoint (requests w) self = Ok TopNotAnObject →
        (execute_query endpoint self w).1 = Raise TypeError) ∧
  (∀ members, endpoint (requests w) self = Ok (TopObject members) →
     (members !! "results" = None →
        (execute_query endpoint self w).1 = Raise (KeyError "results")) ∧
     (members !! "results" = Some ResultsNotAnObject →
        (execute_query endpoint self w).1 = Raise TypeError) ∧
     (∀ results, members !! "results" = Some (ResultsObject results) →
        (results !! "bindings" = None →
           (execute_query endpoint self w).1 = Raise (KeyError "bindings")) ∧
        (results !! "bindings" = Some BindingsNotIterable →
           (execute_query endpoint self w).1 = Raise TypeError) ∧
        (∀ c s, results !! "bindings" = Some (BindingsString (String c s)) →
           (execute_query endpoint self w).1 = Raise TypeError) ∧
        (∀ n c s after,
           results !! "bindings"
             = Some (BindingsObject (replicate n "" ++ String c s :: after)) →
           (execute_query endpoint self w).1 = Raise TypeError) ∧
        (results !! "bindings" = Some (BindingsString "") →
           (execute_query endpoint self w).1 = Ok (DataFrame_of_records [])) ∧
        (∀ n, results !! "bindings" = Some (BindingsObject (replicate n "")) →
           (execute_query endpoint self w).1 = Ok (DataFrame_of_records (replicate n ∅))) ∧
        (∀ items, results !! "bindings" = Some (Rows items) →
           (∀ before row after e,
              items = before ++ row :: after →
              Forall (λ r, returned (transform_row_any r) = true) before →
              transform_row_any row = Raise e →
              (execute_query endpoint self w).1 = Raise e) ∧
           (∀ flats,
              Forall2 (λ row flat, transform_row_any row = Ok flat) items flats →
              (execute_query endpoint self w).1 = Ok (DataFrame_of_records flats))))) ∧
  (transform_row_any RowNotIterable = Raise TypeError ∧
   (∀ c s, transform_row_any (RowString (String c s)) = Raise TypeError) ∧
   transform_row_any (RowString "") = Ok ∅ ∧
   transform_row_any (RowArray []) = Ok ∅ ∧
   (∀ items, items ≠ [] →
      ∃ e, transform_row_any (RowArray items) = Raise e ∧
           e ∈ [TypeError; IndexError; KeyError "value"]) ∧
   (∀ members, Forall has_value members →
      ∃ flat, transform_row_any (ARow members) = Ok flat) ∧
   (∀ before key after,
      Forall has_value before →
      transform_row_any (ARow (before ++ (key, NotAnObject) :: after)) = Raise TypeError) ∧
   (∀ before key binding after,
      Forall has_value before →
      binding !! "value" = None →
      transform_row_any (ARow (before ++ (key, ABinding binding) :: after))
        = Raise (KeyError "value"))) ∧
  (∀ df, (execute_query endpoint self w).1 = Ok df →
     ∃ members results bindings items flats,
       endpoint (requests w) self = Ok (TopObject members) ∧
       members !! "results" = Some (ResultsObject results) ∧
       results !! "bindings" = Some bindings ∧
       iterate bindings = Ok items ∧
       Forall2 (λ row flat, transform_row_any row = Ok flat) items flats ∧
       df = DataFrame_of_records flats ∧
       length (rows df) = length items).
Proof.
  rewrite execute_query_eq. cbn [fst snd]. split; [done|]. split_and!.
  - by intros e ->.
  - by intros ->.
  - intros members ->. cbn [mbind res_bind]. split_and!.
    + intros Hresults. unfold table_of_response. simpl. unfold getitem.
      by rewrite Hresults.
    + intros Hresults. unfold table_of_response. simpl. unfold getitem.
      by rewrite Hresults.
    + intros results Hresults. split_and!.
      * intros Hbindings. unfold table_of_response. simpl. unfold getitem.
        rewrite Hresults. simpl. unfold getitem. by rewrite Hbindings.
      * intros Hbindings.
        by rewrite (table_of_response_bindings _ _ _ Hresults Hbindings).
      * intros c s Hbindings.
        by rewrite (table_of_response_bindings _ _ _ Hresults Hbindings).
      * intros n c s after Hbindings.
        rewrite (table_of_response_bindings _ _ _ Hresults Hbindings).
        cbn [iterate mbind res_bind]. rewrite fmap_app, fmap_cons.
        rewrite (mapM_res_first_failure _ _ _ _ TypeError); [done| |done].
        apply Forall_fmap, Forall_forall. by intros key ->%elem_of_replicate_inv.
      * intros Hbindings.
        by rewrite (table_of_response_bindings _ _ _ Hresults Hbindings).
      * intros n Hbindings.
        rewrite (table_of_response_bindings _ _ _ Hresults Hbindings).
        cbn [iterate mbind res_bind].
        assert (mapM transform_row_any (RowString <$> replicate n "")
                  = Ok (replicate n ∅)) as ->; [|done].
        apply mapM_res_Ok. clear Hbindings.
        induction n as [|n IH]; [by apply Forall2_nil|]. by apply Forall2_cons.
      * intros items Hbindings.
        rewrite (table_of_response_bindings _ _ _ Hresults Hbindings).
        cbn [iterate mbind res_bind]. split.
        -- intros before row after e -> Hbefore Hrow.
           by rewrite (mapM_res_first_failure _ _ _ _ _ Hbefore Hrow).
        -- intros flats Hflats. apply mapM_res_Ok in Hflats. by rewrite Hflats.
  - done.
  - done.
  - done.
  - done.
  - intros items Hne. by apply transform_array_row_raises.
  - intros members Hmembers. by apply transform_members_total.
  - intros before key after Hbefore. simpl.
    by apply transform_members_first_failure.
  - intros before key binding after Hbefore Hvalue. simpl.
    apply transform_members_first_failure; [done|].
    simpl. unfold getitem. by rewrite Hvalue.
  - intros df.
    destruct (endpoint (requests w) self) as [response|e]; cbn [mbind res_bind]; [|done].
    intros Hdf.
    apply table_of_response_Ok in Hdf
      as (members & results & bindings & items & flats & -> & ? & ? & ? & Hflats & ->).
    exists members, results, bindings, items, flats. split_and!; try done.
    simpl. rewrite length_fmap. symmetry. by eapply Forall2_length.
Qed.

(** C3. Sparse rows: when the response has two rows, the first binding
    the variables [a] and [b] and the second only [a], the DataFrame has
    the column set {a, b} and its second row has a value for [a] and
    none for [b]: the value is missing, it is not the empty string. *)
Theorem sparse_row_handling (self : WikiDataQueryResults) (w : world)
    (document : Document) (results : gmap string (list RawBinding))
    (a b : string) (row1 row2 : RawBinding) :
  endpoint (requests w) self = Ok (shaped document) →
  document !! "results" = Some results →
  results !! "bindings" = Some [row1; row2] →
  well_formed_row row1 → well_formed_row row2 →
  a ≠ b → dom row1 = {[a; b]} → dom row2 = {[a]} →
  ∃ (df : DataFrame) (flat1 flat2 : FlatRow),
    execute_query endpoint self w = (Ok df, after_request w) ∧
    transform2dicts [row1; row2] = Ok [flat1; flat2] ∧
    rows df = [Str <$> flat1; Str <$> flat2] ∧
    columns df = {[a; b]} ∧
    flat2 !! b = None ∧
    flat2 !! b ≠ Some "" ∧
    (Str <$> flat2) !! b = None ∧
    is_Some ((Str <$> flat2) !! a).
Proof.
  intros Hdoc Hresults Hbindings Hwf1 Hwf2 Hab Hdom1 Hdom2.
  destruct (transform_row_spec row1 Hwf1) as (flat1 & Hrow1 & _).
  destruct (transform_row_spec row2 Hwf2) as (flat2 & Hrow2 & _).
  destruct (transform_row_Ok _ _ Hrow1) as (_ & Hd1 & _).
  destruct (transform_row_Ok _ _ Hrow2) as (_ & Hd2 & _).
  assert (transform2dicts [row1; row2] = Ok [flat1; flat2]) as Hflats.
  { rewrite transform2dicts_mapM. simpl. rewrite Hrow1. simpl. by rewrite Hrow2. }
  assert (flat2 !! b = None) as Hb.
  { apply not_elem_of_dom. rewrite Hd2, Hdom2. set_solver. }
  exists (DataFrame_of_records [flat1; flat2]), flat1, flat2.
  split; [|split; [done|split; [done|split; [|split; [done|split; [|split]]]]]].
  - rewrite (execute_query_shaped _ _ _ Hdoc).
    unfold table_of_document, getitem. rewrite Hresults. simpl.
    rewrite Hbindings. simpl. by rewrite Hflats.
  - simpl. rewrite Hd1, Hd2, Hdom1, Hdom2.
    apply set_eq. intros x. rewrite !elem_of_union, elem_of_empty. tauto.
  - by rewrite Hb.
  - by rewrite lookup_fmap, Hb.
  - rewrite lookup_fmap. apply fmap_is_Some, elem_of_dom.
    rewrite Hd2, Hdom2. set_solver.
Qed.

(** C10. Empty result: when the bindings list of the response is empty,
    flattening returns the empty list and [execute_query] succeeds with
    a DataFrame that has no rows (and no columns). *)
Theorem empty_result (self : WikiDataQueryResults) (w : world)
    (document : Document) (results : gmap string (list RawBinding)) :
  endpoint (requests w) self = Ok (shaped document) →
  document !! "results" = Some results →
  results !! "bindings" = Some [] →
  transform2dicts [] = Ok [] ∧
  execute_query endpoint self w =
    (Ok {| columns := ∅; rows := [] |}, after_request w).
Proof.
  intros Hdoc Hresults Hbindings. split; [done|].
  rewrite (execute_query_shaped _ _ _ Hdoc).
  unfold table_of_document, getitem. rewrite Hresults. simpl.
  by rewrite Hbindings.
Qed.

End Fetcher.

(** The claim of a single dedicated error kind fails: a transport
    failure leaves [execute_query] as the [URLError] of the client
    library, a document without [results] as a [KeyError], a response
    that is no object as a [TypeError]. *)
Lemma no_dedicated_error_kind :
  (execute_query (Sample.endpoint_of (Raise URLError)) Sample.request Sample.start).1
    = Raise URLError ∧
  (execute_query (Sample.endpoint_of (Ok (shaped ∅))) Sample.request Sample.start).1
    = Raise (KeyError "results") ∧
  (execute_query (Sample.endpoint_of (Ok TopNotAnObject)) Sample.request Sample.start).1
    = Raise TypeError ∧
  ¬ ∃ QueryExecutionError, dedicated_error_kind QueryExecutionError.
Proof.
  split; [done|]. split; [done|]. split; [done|].
  intros [kind Hkind].
  destruct (Hkind (Sample.endpoint_of (Raise URLError)) Sample.request Sample.start)
    as (e1 & He1 & Hc1); [done|].
  destruct (Hkind (Sample.endpoint_of (Ok TopNotAnObject)) Sample.request Sample.start)
    as (e2 & He2 & Hc2).
  { simpl. by intros (document & ? & _). }
  vm_compute in He1, He2. injection He1 as <-. injection He2 as <-.
  simpl in *. congruence.
Qed.

(** ** Sorting by insertion *)

Section Sorting.

Context {A : Type} (before : A → A → bool).

Lemma insert_by_split (x : A) (l : list A) :
  ∃ l1 l2, l = l1 ++ l2 ∧
           insert_by before x l = l1 ++ x :: l2 ∧
           Forall (λ y, before x y = false) l1.
Proof.
  induction l as [|y l IH]; simpl.
  - exists [], []. by split_and!.
  - destruct (before x y) eqn:Hxy.
    + exists [], (y :: l). by split_and!.
    + destruct IH as (l1 & l2 & -> & -> & Hl1).
      exists (y :: l1), l2. split_and!; [done..|]. by constructor.
Qed.

Lemma insert_by_Permutation (x : A) (l : list A) :
  insert_by before x l ≡ₚ x :: l.
Proof.
  destruct (insert_by_split x l) as (l1 & l2 & -> & -> & _).
  by rewrite Permutation_middle.
Qed.

Lemma sort_by_Permutation (l : list A) : sort_by before l ≡ₚ l.
Proof.
  induction l as [|x l IH]; simpl; [done|].
  by rewrite insert_by_Permutation, IH.
Qed.

Section Sorted.

Context (R : relation A) `{!Transitive R}.
Hypothesis before_true : ∀ x y, before x y = true → R x y.
Hypothesis before_false : ∀ x y, before x y = false → R y x.

Lemma insert_by_StronglySorted (x : A) (l : list A) :
  StronglySorted R l → StronglySorted R (insert_by before x l).
Proof.
  induction 1 as [|y l Hl IH Hy]; simpl.
  - repeat constructor.
  - destruct (before x y) eqn:Hxy.
    + constructor; [by constructor|]. constructor; [by apply before_true|].
      eapply Forall_impl; [exact Hy|]. intros z Hz.
      transitivity y; [by apply before_true|done].
    + constructor; [done|].
      rewrite insert_by_Permutation. constructor; [by apply before_false|done].
Qed.

Lemma sort_by_StronglySorted (l : list A) : StronglySorted R (sort_by before l).
Proof.
  induction l as [|x l IH]; simpl; [constructor|].
  by apply insert_by_StronglySorted.
Qed.

End Sorted.

End Sorting.

(** ** Counting *)

Section Counting.

Context {K : Type} `{EqDecision K}.
Implicit Types (k : K) (values : list K).

Lemma elem_of_first_seen k values : k ∈ first_seen values ↔ k ∈ values.
Proof.
  induction values as [|x values IH]; simpl; [done|].
  rewrite !elem_of_cons, list_elem_of_filter, IH.
  destruct (decide (k = x)); naive_solver.
Qed.

Lemma NoDup_filter_list (P : K → Prop) `{!∀ x, Decision (P x)} (l : list K) :
  NoDup l → NoDup (filter P l).
Proof.
  induction 1 as [|x l Hx Hl IH]; [constructor|].
  rewrite filter_cons. case_decide; [|done].
  constructor; [|done]. rewrite list_elem_of_filter. tauto.
Qed.

Lemma NoDup_first_seen values : NoDup (first_seen values).
Proof.
  induction values as [|x values IH]; simpl; constructor.
  - rewrite list_elem_of_filter. tauto.
  - by apply NoDup_filter_list.
Qed.

Lemma first_seen_snoc values k :
  first_seen (values ++ [k]) =
  first_seen values ++ (if decide (k ∈ values) then [] else [k]).
Proof.
  induction values as [|x values IH]; simpl; [done|].
  rewrite IH, filter_app. f_equal. f_equal.
  destruct (decide (k ∈ values)) as [Hin|Hin].
  - rewrite decide_True; [done|]. by right.
  - rewrite filter_cons. destruct (decide (k = x)) as [->|Hne].
    + rewrite decide_False by tauto. rewrite decide_True; [done|]. by left.
    + rewrite decide_True by done. rewrite decide_False; [done|].
      rewrite elem_of_cons. tauto.
Qed.

Lemma occurrences_snoc k' values k :
  occurrences k' (values ++ [k]) =
  occurrences k' values + (if decide (k = k') then 1 else 0).
Proof.
  unfold occurrences. rewrite filter_app, length_app, filter_cons. simpl.
  by destruct (decide (k = k')).
Qed.

Lemma occurrences_pos k values : k ∈ values ↔ 0 < occurrences k values.
Proof.
  unfold occurrences. induction values as [|x values IH].
  - simpl. rewrite elem_of_nil. lia.
  - rewrite filter_cons, elem_of_cons. destruct (decide (x = k)) as [->|Hne].
    + simpl. split; [lia|]. by left.
    + rewrite IH. naive_solver.
Qed.

Lemma occurrences_Permutation k values values' :
  values ≡ₚ values' → occurrences k values = occurrences k values'.
Proof. unfold occurrences. by intros ->. Qed.

Lemma tally_snoc values k : tally (values ++ [k]) = bump k (tally values).
Proof. unfold tally. by rewrite foldl_app. Qed.

Lemma bump_fmap (g g' : K → nat) (keys : list K) k :
  (∀ k', k' ≠ k → g' k' = g k') →
  g' k = S (g k) →
  NoDup keys →
  bump k ((λ k', (k', g k')) <$> keys) =
  ((λ k', (k', g' k')) <$> keys) ++ (if decide (k ∈ keys) then [] else [(k, 1)]).
Proof.
  intros Hother Hk. induction 1 as [|x keys Hx Hkeys IH]; csimpl; [done|].
  destruct (decide (k = x)) as [->|Hne].
  - rewrite Hk, decide_True by (by left). rewrite app_nil_r. f_equal.
    apply list_fmap_ext. intros i k' Hk'. rewrite Hother; [done|].
    intros ->. apply Hx. by eapply list_elem_of_lookup_2.
  - rewrite IH, Hother by done. f_equal. f_equal.
    destruct (decide (k ∈ keys)) as [Hin|Hin].
    + rewrite decide_True; [done|]. by right.
    + rewrite decide_False; [done|]. rewrite elem_of_cons. tauto.
Qed.

(** The counters of [tally]: one per distinct value, in the order of
    first occurrence, each with the number of occurrences. *)
Lemma tally_spec values :
  tally values = (λ k, (k, occurrences k values)) <$> first_seen values.
Proof.
  induction values as [|k values IH] using rev_ind; [done|].
  rewrite tally_snoc, IH.
  rewrite (bump_fmap _ (λ k', occurrences k' (values ++ [k]))).
  - rewrite first_seen_snoc, fmap_app.
    f_equal. rewrite (decide_ext _ _ _ _ (elem_of_first_seen k values)).
    destruct (decide (k ∈ values)) as [Hin|Hin]; [done|]. simpl.
    rewrite occurrences_snoc, decide_True by done.
    destruct (occurrences k values) eqn:Hocc; [done|].
    destruct Hin. apply occurrences_pos. lia.
  - intros k' Hne. rewrite occurrences_snoc, decide_False by done. lia.
  - rewrite occurrences_snoc, decide_True by done. lia.
  - apply NoDup_first_seen.
Qed.

Lemma elem_of_tally k n values :
  (k, n) ∈ tally values ↔ k ∈ values ∧ n = occurrences k values.
Proof.
  rewrite tally_spec, list_elem_of_fmap. setoid_rewrite elem_of_first_seen.
  naive_solver.
Qed.

Lemma tally_keys values : (tally values).*1 = first_seen values.
Proof.
  rewrite tally_spec. generalize (first_seen values). intros keys.
  induction keys as [|k keys IH]; csimpl; [done|]. by rewrite IH.
Qed.

Lemma NoDup_tally_keys values : NoDup (tally values).*1.
Proof. rewrite tally_keys. apply NoDup_first_seen. Qed.

(** *** value_counts *)

Section ValueCounts.

Context (sort_values : ∀ K : Type, list (K * nat) → list (K * nat)).
Hypothesis sort_values_spec : sorts_descending sort_values.

Lemma value_counts_Permutation values : value_counts sort_values values ≡ₚ tally values.
Proof. apply sort_values_spec. Qed.

Lemma elem_of_value_counts k n values :
  (k, n) ∈ value_counts sort_values values ↔ k ∈ values ∧ n = occurrences k values.
Proof. by rewrite value_counts_Permutation, elem_of_tally. Qed.

Lemma NoDup_value_counts_keys values : NoDup (value_counts sort_values values).*1.
Proof. rewrite value_counts_Permutation. apply NoDup_tally_keys. Qed.

Lemma value_counts_descending values :
  StronglySorted (λ x y : K * nat, y.2 ≤ x.2) (value_counts sort_values values).
Proof. apply sort_values_spec. Qed.

Lemma length_value_counts values :
  length (value_counts sort_values values) = length (first_seen values).
Proof. by rewrite value_counts_Permutation, tally_spec, length_fmap. Qed.

Lemma value_counts_counts values :
  (value_counts sort_values values).*2 ≡ₚ
  (λ k, occurrences k values) <$> first_seen values.
Proof.
  by rewrite value_counts_Permutation, tally_spec, <- list_fmap_compose.
Qed.

End ValueCounts.

End Counting.

(** ** Heads of sorted lists *)

Section Heads.

Context {A : Type}.
Implicit Types (l : list A) (n : nat).

Lemma elem_of_drop_of_not_take l n x : x ∈ l → x ∉ take n l → x ∈ drop n l.
Proof.
  intros Hl Hn. rewrite <- (take_drop n l), elem_of_app in Hl. tauto.
Qed.

Lemma StronglySorted_take (R : relation A) l n :
  StronglySorted R l → StronglySorted R (take n l).
Proof.
  rewrite <- (take_drop n l) at 1. apply StronglySorted_app_1_l.
Qed.

Lemma StronglySorted_take_drop (R : relation A) l n x y :
  StronglySorted R l → x ∈ take n l → y ∈ drop n l → R x y.
Proof.
  rewrite <- (take_drop n l) at 1. apply StronglySorted_app_1_elem_of.
Qed.

Lemma StronglySorted_strict {B} (f : A → B) (R R' : relation A) l :
  (∀ x y, R x y → f x ≠ f y → R' x y) →
  StronglySorted R l →
  NoDup (f <$> l) →
  StronglySorted R' l.
Proof.
  intros Hstrict. induction 1 as [|x l Hl IH Hx]; csimpl; [constructor|].
  rewrite NoDup_cons. intros [Hnotin Hnodup].
  constructor; [by apply IH|].
  rewrite Forall_forall in Hx. apply Forall_forall. intros y Hy.
  apply Hstrict; [by apply Hx|].
  intros Heq. apply Hnotin. rewrite Heq. by apply list_elem_of_fmap_2.
Qed.

End Heads.

(** ** The two sorts of the examples *)

Lemma sort_values_spec : sorts_descending Sample.sort_values.
Proof.
  intros K counts. split; [apply sort_by_Permutation|].
  apply sort_by_StronglySorted.
  - intros x y z ? ?. lia.
  - intros x y Hxy. by apply bool_decide_eq_true in Hxy.
  - intros x y Hxy. apply bool_decide_eq_false in Hxy. lia.
Qed.

Lemma sort_values_ties_reversed_spec : sorts_descending Sample.sort_values_ties_reversed.
Proof.
  intros K counts. split; [apply sort_by_Permutation|].
  apply sort_by_StronglySorted.
  - intros x y z ? ?. lia.
  - intros x y Hxy. apply bool_decide_eq_true in Hxy. lia.
  - intros x y Hxy. apply bool_decide_eq_false in Hxy. lia.
Qed.

(** ** Counts by performer *)

Lemma occurrences_performer_labels (performer : cell) (albums_df : DataFrame) :
  occurrences performer (performer_labels albums_df) = albums_of performer albums_df.
Proof.
  unfold occurrences, performer_labels, albums_of, dropna.
  induction (rows albums_df) as [|row records IH]; [done|].
  rewrite fmap_cons, filter_cons. csimpl.
  destruct (row !! "performerLabel") as [label|]; simpl.
  - rewrite filter_cons. destruct (decide (label = performer)) as [->|Hne].
    + rewrite decide_True by done. simpl. by rewrite IH.
    + rewrite decide_False by congruence. done.
  - done.
Qed.

Lemma length_performer_labels (albums_df : DataFrame) :
  length (performer_labels albums_df) = labelled_rows albums_df.
Proof.
  unfold performer_labels, labelled_rows, dropna.
  induction (rows albums_df) as [|row records IH]; [done|].
  rewrite fmap_cons, filter_cons. csimpl.
  destruct (row !! "performerLabel") as [label|]; simpl.
  - by rewrite IH.
  - done.
Qed.

Lemma elem_of_performer_labels (performer : cell) (albums_df : DataFrame) :
  performer ∈ performer_labels albums_df ↔ 0 < albums_of performer albums_df.
Proof. by rewrite occurrences_pos, occurrences_performer_labels. Qed.

Section PerformerCounts.

Context (sort_values : ∀ K : Type, list (K * nat) → list (K * nat)).
Hypothesis sort_values_spec : sorts_descending sort_values.

Lemma performer_album_counts_eq (albums_df : DataFrame) :
  "performerLabel" ∈ columns albums_df →
  performer_album_counts sort_values albums_df =
  Ok (value_counts sort_values (performer_labels albums_df)).
Proof.
  intros Hcol. unfold performer_album_counts, df_getitem.
  by rewrite decide_True.
Qed.

Lemma performer_album_counts_Raise (albums_df : DataFrame) :
  "performerLabel" ∉ columns albums_df →
  performer_album_counts sort_values albums_df = Raise (KeyError "performerLabel").
Proof.
  intros Hcol. unfold performer_album_counts, df_getitem.
  by rewrite decide_False.
Qed.

(** One counter per performer of the table, with the number of its rows. *)
Lemma elem_of_performer_counts (albums_df : DataFrame) (performer : cell) (n : nat) :
  (performer, n) ∈ value_counts sort_values (performer_labels albums_df) ↔
  0 < n ∧ n = albums_of performer albums_df.
Proof.
  rewrite (elem_of_value_counts _ sort_values_spec).
  rewrite elem_of_performer_labels, occurrences_performer_labels.
  split; intros [? ->]; by split.
Qed.

(** The performers of the table, listed once each in any order, are as
    many as the counters and have the counts of the counters. *)
Lemma performers_first_seen (albums_df : DataFrame) (performers : list cell) :
  NoDup performers →
  (∀ p, p ∈ performers ↔ 0 < albums_of p albums_df) →
  performers ≡ₚ first_seen (performer_labels albums_df).
Proof.
  intros Hnodup Hall. apply NoDup_Permutation; [done|apply NoDup_first_seen|].
  intros p. by rewrite Hall, elem_of_first_seen, elem_of_performer_labels.
Qed.

(** C5, as the code has it. Top-10 performer view: the counts by
    performer are one counter per performer of the table, each with the
    number of the rows that name the performer, in descending order of
    count; the view used by the charts is their first 10 (all of them
    when the table names fewer than 10 performers), so no performer left
    out has more albums than one in the view.  With 15 performers whose
    numbers of albums are pairwise different, the view has exactly 10
    entries in strictly descending order, each with more albums than
    every performer left out.  Nothing is said of the order of
    performers with the same number of albums: the sort of pandas
    decides it. *)
Theorem top10_performer_view (albums_df : DataFrame) :
  "performerLabel" ∈ columns albums_df →
  ∃ counts : list (cell * nat),
    performer_album_counts sort_values albums_df = Ok counts ∧
    let view := head 10 counts in
    NoDup counts.*1 ∧
    (∀ p n, (p, n) ∈ counts ↔ 0 < n ∧ n = albums_of p albums_df) ∧
    StronglySorted (λ x y, y.2 ≤ x.2) counts ∧
    view `prefix_of` counts ∧
    (∀ x y, x ∈ view → y ∈ counts → y ∉ view → y.2 ≤ x.2) ∧
    ∀ performers : list cell,
      NoDup performers →
      (∀ p, p ∈ performers ↔ 0 < albums_of p albums_df) →
      length counts = length performers ∧
      length view = min 10 (length performers) ∧
      (length performers = 15 →
       NoDup ((λ p, albums_of p albums_df) <$> performers) →
       length view = 10 ∧
       StronglySorted (λ x y, y.2 < x.2) view ∧
       ∀ x y, x ∈ view → y ∈ counts → y ∉ view → y.2 < x.2).
Proof.
  intros Hcol. exists (value_counts sort_values (performer_labels albums_df)).
  split; [by apply performer_album_counts_eq|].
  intros view. subst view. unfold head.
  set (labels := performer_labels albums_df).
  pose proof (value_counts_descending _ sort_values_spec labels) as Hsorted.
  split_and!.
  - by apply NoDup_value_counts_keys.
  - intros p n. apply elem_of_performer_counts.
  - done.
  - apply prefix_take.
  - intros x y Hx Hy Hnot.
    eapply (StronglySorted_take_drop _ _ 10 x y Hsorted); [done|].
    by apply elem_of_drop_of_not_take.
  - intros performers Hnodup Hall.
    pose proof (performers_first_seen albums_df performers Hnodup Hall) as Hperm.
    assert (length (value_counts sort_values labels) = length performers) as Hlen.
    { unfold labels. by rewrite (length_value_counts _ sort_values_spec), Hperm. }
    split; [done|]. split; [by rewrite length_take, Hlen|].
    intros H15 Hdistinct.
    assert (StronglySorted (λ x y : cell * nat, y.2 < x.2) (value_counts sort_values labels))
      as Hstrict.
    { apply (StronglySorted_strict snd (λ x y, y.2 ≤ x.2)); [|done|].
      - intros x y ? ?. assert (x.2 ≠ y.2) by done. lia.
      - unfold labels. rewrite (value_counts_counts _ sort_values_spec), <- Hperm.
        erewrite list_fmap_ext; [exact Hdistinct|].
        intros i p _. apply occurrences_performer_labels. }
    split_and!.
    + by rewrite length_take, Hlen, H15.
    + by apply StronglySorted_take.
    + intros x y Hx Hy Hnot.
      eapply (StronglySorted_take_drop _ _ 10 x y Hstrict); [done|].
      by apply elem_of_drop_of_not_take.
Qed.

End PerformerCounts.

(** The order of performers with the same number of albums is not
    the order of the table in general: a sort by descending count that
    puts equal counts in the opposite order gives, for a table that
    names Performer A before Performer B with one album each, the view
    with Performer B first. *)
Lemma ties_not_in_first_seen_order :
  sorts_descending Sample.sort_values_ties_reversed ∧
  performer_album_counts Sample.sort_values_ties_reversed Sample.two_albums =
    Ok [(Str "Performer B", 1); (Str "Performer A", 1)] ∧
  first_row (Str "Performer A") Sample.two_albums = Some 0 ∧
  first_row (Str "Performer B") Sample.two_albums = Some 1 ∧
  ¬ ties_in_first_seen_order Sample.sort_values_ties_reversed Sample.two_albums.
Proof.
  split; [apply sort_values_ties_reversed_spec|].
  assert (performer_album_counts Sample.sort_values_ties_reversed Sample.two_albums =
            Ok [(Str "Performer B", 1); (Str "Performer A", 1)]) as Hcounts
    by (vm_compute; reflexivity).
  assert (first_row (Str "Performer A") Sample.two_albums = Some 0) as HA
    by (vm_compute; reflexivity).
  assert (first_row (Str "Performer B") Sample.two_albums = Some 1) as HB
    by (vm_compute; reflexivity).
  split; [done|]. split; [done|]. split; [done|].
  intros Hties.
  destruct (Hties _ 0 1 (Str "Performer B") (Str "Performer A") 1 Hcounts)
    as (a & b & Ha & Hb & Hlt); [done|done|lia|].
  rewrite HB in Ha. rewrite HA in Hb. injection Ha as <-. injection Hb as <-. lia.
Qed.

(** ** Columns of a DataFrame *)

Lemma df_getitem_Ok (df : DataFrame) (column : string) :
  column ∈ columns df →
  df_getitem df column = Ok ((.!! column) <$> rows df).
Proof. intros Hcol. unfold df_getitem. by rewrite decide_True. Qed.

Lemma df_getitem_Raise (df : DataFrame) (column : string) :
  column ∉ columns df →
  df_getitem df column = Raise (KeyError column).
Proof. intros Hcol. unfold df_getitem. by rewrite decide_False. Qed.

Lemma length_rows_setitem (df : DataFrame) (column : string) (series : Series) :
  length series = length (rows df) →
  length (rows (df_setitem df column series)) = length (rows df).
Proof. intros Hlen. simpl. rewrite length_zip_with. lia. Qed.

Lemma lookup_rows_setitem (df : DataFrame) (column : string) (series : Series)
    (i : nat) (row : gmap string cell) (v : option cell) :
  rows df !! i = Some row → series !! i = Some v →
  rows (df_setitem df column series) !! i = Some (set_cell column row v).
Proof. intros Hrow Hv. simpl. by rewrite lookup_zip_with, Hrow; simpl; rewrite Hv. Qed.

Lemma lookup_set_cell_eq (column : string) (row : gmap string cell) (v : option cell) :
  set_cell column row v !! column = v.
Proof.
  destruct v; simpl; [apply lookup_insert_eq|apply lookup_delete_eq].
Qed.

Lemma lookup_set_cell_ne (column c : string) (row : gmap string cell) (v : option cell) :
  column ≠ c → set_cell column row v !! c = row !! c.
Proof.
  intros Hne. destruct v; simpl; [by apply lookup_insert_ne|by apply lookup_delete_ne].
Qed.

(** Reading back a column that was just assigned. *)
Lemma column_setitem_eq (df : DataFrame) (column : string) (series : Series) :
  length series = length (rows df) →
  (.!! column) <$> rows (df_setitem df column series) = series.
Proof.
  simpl. generalize (rows df). intros records. revert series.
  induction records as [|row records IH]; intros [|v series]; simpl; try done.
  intros [= Hlen]. by rewrite lookup_set_cell_eq, IH.
Qed.

(** Another column is not touched by the assignment. *)
Lemma column_setitem_ne (df : DataFrame) (column c : string) (series : Series) :
  length series = length (rows df) → column ≠ c →
  (.!! c) <$> rows (df_setitem df column series) = (.!! c) <$> rows df.
Proof.
  simpl. generalize (rows df). intros records. revert series.
  induction records as [|row records IH]; intros [|v series]; simpl; try done.
  intros [= Hlen] Hne. by rewrite lookup_set_cell_ne, IH.
Qed.

Lemma df_getitem_setitem (df : DataFrame) (column : string) (series : Series) :
  length series = length (rows df) →
  df_getitem (df_setitem df column series) column = Ok series.
Proof.
  intros Hlen. rewrite df_getitem_Ok, column_setitem_eq; [done..|].
  simpl. set_solver.
Qed.

Lemma dt_year_datetime_series (parsed : list (option Timestamp)) :
  dt_year (datetime_series parsed) = Ok (year_series parsed).
Proof.
  unfold dt_year, datetime_series, year_series.
  apply mapM_res_Ok, Forall2_fmap, Forall_Forall2_diag, Forall_forall.
  by intros [t|] _.
Qed.

Lemma astype_int_year_series (parsed : list (option Timestamp)) :
  astype_int (dropna (year_series parsed)) = Ok (parsed_years parsed).
Proof.
  unfold astype_int, dropna, parsed_years, year_series.
  apply mapM_res_Ok.
  induction parsed as [|[t|] parsed IH]; simpl; [constructor| |done].
  by constructor.
Qed.

Lemma parsed_years_delete (parsed : list (option Timestamp)) (i : nat) :
  parsed !! i = Some None →
  parsed_years (delete i parsed) = parsed_years parsed.
Proof.
  unfold parsed_years. revert i.
  induction parsed as [|t parsed IH]; intros [|i]; simpl; try done.
  - by intros [= ->].
  - intros Hi. by rewrite IH.
Qed.

(** ** Counts by year *)

Lemma value_counts_nil {K} `{EqDecision K}
    (sort_values : ∀ K : Type, list (K * nat) → list (K * nat)) (values : list K) :
  sorts_descending sort_values →
  value_counts sort_values values = [] ↔ values = [].
Proof.
  intros Hspec. split.
  - intros Hnil. destruct values as [|k values]; [done|].
    assert ((k, occurrences k (k :: values)) ∈ value_counts sort_values (k :: values))
      as Hin by (apply (elem_of_value_counts _ Hspec); split; [by left|done]).
    rewrite Hnil in Hin. by apply elem_of_nil in Hin.
  - intros ->. apply Permutation_nil_r.
    exact (value_counts_Permutation _ Hspec []).
Qed.

Lemma sort_index_Permutation {V} (counts counts' : list (Z * V)) :
  NoDup counts.*1 → counts ≡ₚ counts' → sort_index counts = sort_index counts'.
Proof.
  intros Hnodup Hperm. unfold sort_index.
  assert (∀ l : list (Z * V), NoDup l.*1 →
            StronglySorted (λ x y, (x.1 < y.1)%Z)
              (sort_by (λ x y, bool_decide (x.1 ≤ y.1)%Z) l)) as Hsorted.
  { intros l Hl.
    apply (StronglySorted_strict fst (λ x y, (x.1 ≤ y.1)%Z)).
    - intros x y ? ?. assert (x.1 ≠ y.1) by done. lia.
    - apply sort_by_StronglySorted.
      + intros x y z ? ?. lia.
      + intros x y Hxy. by apply bool_decide_eq_true in Hxy.
      + intros x y Hxy. apply bool_decide_eq_false in Hxy. lia.
    - by rewrite sort_by_Permutation. }
  apply (StronglySorted_unique_strong (λ x y : Z * V, (x.1 < y.1)%Z)).
  - intros x y _ _ ? ?. lia.
  - by apply Hsorted.
  - apply Hsorted. by rewrite <- Hperm.
  - by rewrite !sort_by_Permutation.
Qed.

Section CountsByYear.

Context (sort_values : ∀ K : Type, list (K * nat) → list (K * nat)).
Hypothesis sort_values_spec : sorts_descending sort_values.

Lemma counts_by_year_tally (years : list Z) :
  counts_by_year sort_values years ≡ₚ tally years.
Proof.
  unfold counts_by_year, sort_index.
  by rewrite sort_by_Permutation, (value_counts_Permutation _ sort_values_spec).
Qed.

(** Sorted by year, the counters do not depend on the order in which
    [value_counts] leaves them. *)
Lemma counts_by_year_eq (years : list Z) :
  counts_by_year sort_values years = sort_index (tally years).
Proof.
  unfold counts_by_year. apply sort_index_Permutation.
  - by apply NoDup_value_counts_keys.
  - by apply value_counts_Permutation.
Qed.

Lemma elem_of_counts_by_year (y : Z) (n : nat) (years : list Z) :
  (y, n) ∈ counts_by_year sort_values years ↔ y ∈ years ∧ n = occurrences y years.
Proof. by rewrite counts_by_year_tally, elem_of_tally. Qed.

Lemma counts_by_year_ascending (years : list Z) :
  StronglySorted (λ x y : Z * nat, (x.1 < y.1)%Z) (counts_by_year sort_values years).
Proof.
  unfold counts_by_year, sort_index.
  apply (StronglySorted_strict fst (λ x y, (x.1 ≤ y.1)%Z)).
  - intros x y ? ?. assert (x.1 ≠ y.1) by done. lia.
  - apply sort_by_StronglySorted.
    + intros x y z ? ?. lia.
    + intros x y Hxy. by apply bool_decide_eq_true in Hxy.
    + intros x y Hxy. apply bool_decide_eq_false in Hxy. lia.
  - rewrite sort_by_Permutation. by apply NoDup_value_counts_keys.
Qed.

Lemma NoDup_counts_by_year (years : list Z) : NoDup (counts_by_year sort_values years).
Proof.
  apply (NoDup_fmap_1 fst). rewrite counts_by_year_tally. apply NoDup_tally_keys.
Qed.

(** The counts depend on the years counted, not on their order. *)
Lemma counts_by_year_Permutation (years years' : list Z) :
  years ≡ₚ years' → counts_by_year sort_values years = counts_by_year sort_values years'.
Proof.
  intros Hperm.
  apply (StronglySorted_unique_strong (λ x y : Z * nat, (x.1 < y.1)%Z)).
  - intros x y _ _ ? ?. lia.
  - apply counts_by_year_ascending.
  - apply counts_by_year_ascending.
  - apply NoDup_Permutation; [apply NoDup_counts_by_year..|].
    intros [y n]. rewrite !elem_of_counts_by_year.
    rewrite (occurrences_Permutation y years years') by done.
    split; intros [Hy ->]; (split; [|done]); [by rewrite <- Hperm|by rewrite Hperm].
Qed.

Lemma counts_by_year_nil (years : list Z) :
  counts_by_year sort_values years = [] ↔ years = [].
Proof.
  split.
  - intros Hnil. destruct years as [|y years]; [done|].
    assert ((y, occurrences y (y :: years)) ∈ counts_by_year sort_values (y :: years))
      as Hin by (apply elem_of_counts_by_year; split; [by left|done]).
    rewrite Hnil in Hin. by apply elem_of_nil in Hin.
  - intros ->. apply Permutation_nil_r. exact (counts_by_year_tally []).
Qed.

End CountsByYear.

(** ** Tables without a date that parses or without a performer *)

Lemma elem_of_parsed_years (parsed : list (option Timestamp)) (y : Z) :
  y ∈ parsed_years parsed ↔ ∃ i t, parsed !! i = Some (Some t) ∧ year t = y.
Proof.
  unfold parsed_years. rewrite list_elem_of_omap. split.
  - intros ([t|] & Hin & Hy); simpl in Hy; [|done]. injection Hy as <-.
    apply list_elem_of_lookup in Hin as [i Hi]. by exists i, t.
  - intros (i & t & Hi & <-). exists (Some t). split; [|done].
    by eapply list_elem_of_lookup_2.
Qed.

Lemma parsed_years_nil (to_datetime : Series → list (option Timestamp))
    (albums_df : DataFrame) :
  parsed_years (to_datetime (publication_dates albums_df)) = [] ↔
  ¬ some_date_parses to_datetime albums_df.
Proof.
  unfold some_date_parses. split.
  - intros Hnil (i & t & Hi).
    assert (year t ∈ parsed_years (to_datetime (publication_dates albums_df))) as Hin
      by (apply elem_of_parsed_years; by exists i, t).
    rewrite Hnil in Hin. by apply elem_of_nil in Hin.
  - intros Hnone.
    destruct (parsed_years (to_datetime (publication_dates albums_df))) as [|y years] eqn:Hyears;
      [done|].
    destruct Hnone.
    assert (y ∈ parsed_years (to_datetime (publication_dates albums_df))) as Hin
      by (rewrite Hyears; by left).
    apply elem_of_parsed_years in Hin as (i & t & Hi & _). by exists i, t.
Qed.

Lemma performer_labels_nil (albums_df : DataFrame) :
  performer_labels albums_df = [] ↔ ¬ some_performer_named albums_df.
Proof.
  unfold some_performer_named. split.
  - intros Hnil (i & row & performer & Hrow & Hlabel).
    assert (0 < albums_of performer albums_df) as Hpos.
    { unfold albums_of.
      assert (row ∈ filter (λ row : gmap string cell,
                              row !! "performerLabel" = Some performer) (rows albums_df))
        as Hin by (apply list_elem_of_filter; split; [done|by eapply list_elem_of_lookup_2]).
      destruct (filter _ (rows albums_df)); [by apply elem_of_nil in Hin|simpl; lia]. }
    apply elem_of_performer_labels in Hpos. rewrite Hnil in Hpos.
    by apply elem_of_nil in Hpos.
  - intros Hnone. destruct (performer_labels albums_df) as [|p labels] eqn:Hlabels; [done|].
    destruct Hnone.
    assert (p ∈ performer_labels albums_df) as Hin by (rewrite Hlabels; by left).
    unfold performer_labels, dropna in Hin.
    apply list_elem_of_omap in Hin as (v & Hv & Hp). simpl in Hp. subst v.
    apply list_elem_of_fmap in Hv as (row & Hlabel & Hrow).
    apply list_elem_of_lookup in Hrow as [i Hi]. by exists i, row, p.
Qed.

Lemma head_nil {A} (n : nat) (l : list A) : head (S n) l = [] ↔ l = [].
Proof. destruct l; by split. Qed.

Lemma plot_bar_nonempty {K} (counts : list (K * nat)) (f : figure) :
  counts ≠ [] → plot_bar counts f = show f.
Proof. by destruct counts. Qed.

(** ** The year statistics of the script *)

Section Report.

Context (to_datetime : Series → list (option Timestamp)).
Hypothesis to_datetime_length : ∀ series, length (to_datetime series) = length series.
Context (sort_values : ∀ K : Type, list (K * nat) → list (K * nat)).

Lemma length_datetime_series (parsed : list (option Timestamp)) :
  length (datetime_series parsed) = length parsed.
Proof. apply length_fmap. Qed.

Lemma length_year_series (parsed : list (option Timestamp)) :
  length (year_series parsed) = length parsed.
Proof. apply length_fmap. Qed.

Lemma length_parsed (albums_df : DataFrame) :
  length (to_datetime (publication_dates albums_df)) = length (rows albums_df).
Proof. rewrite to_datetime_length. apply length_fmap. Qed.

Lemma release_years_eq (albums_df : DataFrame) :
  "publicationDate" ∈ columns albums_df →
  release_years to_datetime albums_df =
  Ok (with_release_year to_datetime albums_df,
      parsed_years (to_datetime (publication_dates albums_df))).
Proof.
  intros Hcol. unfold release_years, with_release_year.
  rewrite df_getitem_Ok by done. simpl.
  fold (publication_dates albums_df).
  set (parsed := to_datetime (publication_dates albums_df)).
  assert (length parsed = length (rows albums_df)) as Hlen by apply length_parsed.
  rewrite df_getitem_setitem by (by rewrite length_datetime_series). simpl.
  rewrite dt_year_datetime_series. simpl.
  rewrite df_getitem_setitem.
  2:{ rewrite length_year_series, length_rows_setitem; [done|].
      by rewrite length_datetime_series. }
  simpl. by rewrite astype_int_year_series.
Qed.

Lemma release_years_Raise (albums_df : DataFrame) :
  "publicationDate" ∉ columns albums_df →
  release_years to_datetime albums_df = Raise (KeyError "publicationDate").
Proof. intros Hcol. unfold release_years. by rewrite df_getitem_Raise. Qed.

Lemma columns_with_release_year (albums_df : DataFrame) :
  columns (with_release_year to_datetime albums_df) =
  columns albums_df ∪ {["publicationDate"]} ∪ {["release_year"]}.
Proof. done. Qed.

Lemma length_rows_with_release_year (albums_df : DataFrame) :
  length (rows (with_release_year to_datetime albums_df)) = length (rows albums_df).
Proof.
  unfold with_release_year.
  rewrite !length_rows_setitem; [done|by rewrite length_datetime_series, length_parsed|].
  rewrite length_year_series, length_rows_setitem, length_parsed; [done|].
  by rewrite length_datetime_series, length_parsed.
Qed.

(** Row by row: the date is replaced by the parsed one, the year is
    added, every other value stays. *)
Lemma lookup_rows_with_release_year (albums_df : DataFrame) (i : nat)
    (row : gmap string cell) :
  rows albums_df !! i = Some row →
  ∃ t : option Timestamp,
    to_datetime (publication_dates albums_df) !! i = Some t ∧
    rows (with_release_year to_datetime albums_df) !! i =
      Some (set_cell "release_year"
              (set_cell "publicationDate" row (Datetime <$> t))
              ((λ d, Num (year d)) <$> t)).
Proof.
  intros Hrow.
  destruct (lookup_lt_is_Some_2 (to_datetime (publication_dates albums_df)) i)
    as [t Ht].
  { rewrite length_parsed. by eapply lookup_lt_Some. }
  exists t. split; [done|]. unfold with_release_year.
  apply lookup_rows_setitem.
  - apply lookup_rows_setitem; [done|].
    unfold datetime_series. by rewrite list_lookup_fmap, Ht.
  - unfold year_series. by rewrite list_lookup_fmap, Ht.
Qed.

(** C6. Unparseable dates: when the date of row [i] does not parse
    (NaT), the date step does not raise, the table keeps all its rows,
    row [i] among them with its other values, and the years counted are
    those of the other rows, so that row [i] adds nothing to the counts
    by year. *)
Theorem unparseable_date_excluded (albums_df : DataFrame) (i : nat)
    (row : gmap string cell) (date : cell) :
  "publicationDate" ∈ columns albums_df →
  rows albums_df !! i = Some row →
  row !! "publicationDate" = Some date →
  to_datetime (publication_dates albums_df) !! i = Some None →
  ∃ (albums_df' : DataFrame) (years : list Z),
    release_years to_datetime albums_df = Ok (albums_df', years) ∧
    length (rows albums_df') = length (rows albums_df) ∧
    (∃ row', rows albums_df' !! i = Some row' ∧
             row' !! "publicationDate" = None ∧
             row' !! "release_year" = None ∧
             ∀ c, c ≠ "publicationDate" → c ≠ "release_year" →
                  row' !! c = row !! c) ∧
    years = parsed_years (delete i (to_datetime (publication_dates albums_df))) ∧
    counts_by_year sort_values years =
      counts_by_year sort_values
        (parsed_years (delete i (to_datetime (publication_dates albums_df)))).
Proof.
  intros Hcol Hrow Hdate Hnat.
  exists (with_release_year to_datetime albums_df),
         (parsed_years (to_datetime (publication_dates albums_df))).
  split; [by apply release_years_eq|].
  split; [by apply length_rows_with_release_year|].
  rewrite parsed_years_delete by done. split; [|done].
  destruct (lookup_rows_with_release_year albums_df i row Hrow) as (t & Ht & Hrow').
  assert (t = None) as -> by congruence.
  eexists. split; [exact Hrow'|]. simpl. split_and!.
  - rewrite lookup_delete_ne by done. apply lookup_delete_eq.
  - apply lookup_delete_eq.
  - intros c Hc1 Hc2. by rewrite !lookup_delete_ne.
Qed.

(** ** The report and the whole run *)

Lemma performer_labels_with_release_year (albums_df : DataFrame) :
  performer_labels (with_release_year to_datetime albums_df) =
  performer_labels albums_df.
Proof.
  unfold performer_labels, with_release_year.
  rewrite !column_setitem_ne; [done| |done| |done].
  - by rewrite length_datetime_series, length_parsed.
  - rewrite length_year_series, length_rows_setitem, length_parsed; [done|].
    by rewrite length_datetime_series, length_parsed.
Qed.

Lemma performer_album_counts_with_release_year (albums_df : DataFrame) :
  "performerLabel" ∈ columns albums_df →
  performer_album_counts sort_values (with_release_year to_datetime albums_df) =
  Ok (value_counts sort_values (performer_labels albums_df)).
Proof.
  intros Hcol. rewrite performer_album_counts_eq, performer_labels_with_release_year; [done|].
  rewrite columns_with_release_year. set_solver.
Qed.

Lemma album_counts_by_year_eq (albums_df : DataFrame) :
  album_counts_by_year (with_release_year to_datetime albums_df) =
  Ok (sort_index (tally (parsed_years (to_datetime (publication_dates albums_df))))).
Proof.
  unfold album_counts_by_year, groupby_size, with_release_year.
  rewrite df_getitem_setitem.
  2:{ rewrite length_year_series, length_rows_setitem, length_parsed; [done|].
      by rewrite length_datetime_series, length_parsed. }
  simpl. by rewrite astype_int_year_series.
Qed.

Lemma scatterplot_eq (albums_df : DataFrame) :
  "performerLabel" ∈ columns albums_df →
  scatterplot (with_release_year to_datetime albums_df) "performerLabel" "release_year" =
  Ok (omap (point_of "performerLabel" "release_year")
           (rows (with_release_year to_datetime albums_df))).
Proof.
  intros Hcol. unfold scatterplot.
  rewrite decide_True; [done|]. rewrite columns_with_release_year. set_solver.
Qed.

(** The report step by step: where it stops, and what it has shown by
    then. *)
Lemma render_no_date_column (singers_df songs_df albums_df : DataFrame) (w : world) :
  "publicationDate" ∉ columns albums_df →
  render to_datetime sort_values singers_df songs_df albums_df w =
  (Raise (KeyError "publicationDate"), w).
Proof.
  intros Hdate. unfold render, mbind, Script_bind, lift.
  by rewrite release_years_Raise.
Qed.

Lemma render_year_bar_empty (singers_df songs_df albums_df : DataFrame) (w : world) :
  "publicationDate" ∈ columns albums_df →
  counts_by_year sort_values (parsed_years (to_datetime (publication_dates albums_df))) = [] →
  render to_datetime sort_values singers_df songs_df albums_df w =
  (Raise IndexError, w).
Proof.
  intros Hdate Hnil. unfold render, mbind, Script_bind, lift.
  rewrite release_years_eq by done. by rewrite Hnil.
Qed.

Lemma render_no_performer_column (singers_df songs_df albums_df : DataFrame) (w : world) :
  "publicationDate" ∈ columns albums_df →
  counts_by_year sort_values (parsed_years (to_datetime (publication_dates albums_df))) ≠ [] →
  "performerLabel" ∉ columns albums_df →
  render to_datetime sort_values singers_df songs_df albums_df w =
  (Raise (KeyError "performerLabel"),
   {| requests := requests w;
      stdout := stdout w;
      figures := figures w ++
        [YearBar (counts_by_year sort_values
                    (parsed_years (to_datetime (publication_dates albums_df))))] |}).
Proof.
  intros Hdate Hyears Hperformer. unfold render, mbind, Script_bind, lift.
  rewrite release_years_eq by done. rewrite plot_bar_nonempty by done.
  unfold show. rewrite performer_album_counts_Raise; [done|].
  rewrite columns_with_release_year. set_solver.
Qed.

Lemma render_performer_bar_empty (singers_df songs_df albums_df : DataFrame) (w : world) :
  "publicationDate" ∈ columns albums_df →
  counts_by_year sort_values (parsed_years (to_datetime (publication_dates albums_df))) ≠ [] →
  "performerLabel" ∈ columns albums_df →
  head 10 (value_counts sort_values (performer_labels albums_df)) = [] →
  render to_datetime sort_values singers_df songs_df albums_df w =
  (Raise IndexError,
   {| requests := requests w;
      stdout := stdout w;
      figures := figures w ++
        [YearBar (counts_by_year sort_values
                    (parsed_years (to_datetime (publication_dates albums_df))))] |}).
Proof.
  intros Hdate Hyears Hperformer Hnil. unfold render, mbind, Script_bind, lift.
  rewrite release_years_eq by done. rewrite plot_bar_nonempty by done.
  unfold show. rewrite performer_album_counts_with_release_year by done.
  by rewrite Hnil.
Qed.

(** The figures of the report, in the order in which they are shown. *)
Lemma render_eq (singers_df songs_df albums_df : DataFrame) (w : world) :
  "publicationDate" ∈ columns albums_df →
  "performerLabel" ∈ columns albums_df →
  let albums_df' := with_release_year to_datetime albums_df in
  let years := parsed_years (to_datetime (publication_dates albums_df)) in
  let counts := value_counts sort_values (performer_labels albums_df) in
  counts_by_year sort_values years ≠ [] →
  head 10 counts ≠ [] →
  render to_datetime sort_values singers_df songs_df albums_df w =
  (Ok {| Globals.singers_df := singers_df;
         Globals.songs_df := songs_df;
         Globals.albums_df := albums_df';
         Globals.release_years := years;
         Globals.performer_album_counts := counts;
         Globals.album_counts_by_year := sort_index (tally years) |},
   {| requests := requests w;
      stdout := stdout w;
      figures := figures w ++
        [YearBar (counts_by_year sort_values years);
         PerformerBar (head 10 counts);
         PerformerPie (head 10 counts);
         YearLine (sort_index (tally years));
         Scatter (omap (point_of "performerLabel" "release_year") (rows albums_df'))] |}).
Proof.
  intros Hdate Hperformer albums_df' years counts Hyears Hcounts.
  unfold render, mbind, Script_bind, lift, mret, Script_ret.
  rewrite release_years_eq by done. rewrite plot_bar_nonempty by done.
  unfold show at 1. rewrite performer_album_counts_with_release_year by done.
  rewrite plot_bar_nonempty by done. unfold show. cbn [requests stdout figures].
  rewrite album_counts_by_year_eq. rewrite scatterplot_eq by done.
  by rewrite <- !app_assoc.
Qed.

(** A report that ends has met both columns, a year to draw and a
    performer to draw. *)
Lemma render_Ok (singers_df songs_df albums_df : DataFrame) (w w' : world)
    (g : Globals.t) :
  render to_datetime sort_values singers_df songs_df albums_df w = (Ok g, w') →
  "publicationDate" ∈ columns albums_df ∧
  "performerLabel" ∈ columns albums_df ∧
  counts_by_year sort_values (parsed_years (to_datetime (publication_dates albums_df))) ≠ [] ∧
  head 10 (value_counts sort_values (performer_labels albums_df)) ≠ [].
Proof.
  intros Hrender.
  destruct (decide ("publicationDate" ∈ columns albums_df)) as [Hdate|Hdate].
  2:{ by rewrite render_no_date_column in Hrender. }
  destruct (decide (counts_by_year sort_values
                      (parsed_years (to_datetime (publication_dates albums_df))) = []))
    as [Hyears|Hyears].
  { by rewrite render_year_bar_empty in Hrender. }
  destruct (decide ("performerLabel" ∈ columns albums_df)) as [Hperformer|Hperformer].
  2:{ by rewrite render_no_performer_column in Hrender. }
  destruct (decide (head 10 (value_counts sort_values (performer_labels albums_df)) = []))
    as [Hcounts|Hcounts].
  { by rewrite render_performer_bar_empty in Hrender. }
  done.
Qed.

Hypothesis sort_values_spec : sorts_descending sort_values.

(** C7. Counts by year: the years counted are the years of the dates
    that parse, in row order; the counts have one entry per such year
    with the number of its rows, in strictly ascending order of the
    year.  Rows with the years 1965, 1965 and 1970, in any order, give
    exactly 1965: 2 and 1970: 1, in that order. *)
Theorem counts_by_year_grouping (albums_df : DataFrame) :
  "publicationDate" ∈ columns albums_df →
  ∃ (albums_df' : DataFrame) (years : list Z),
    release_years to_datetime albums_df = Ok (albums_df', years) ∧
    years = parsed_years (to_datetime (publication_dates albums_df)) ∧
    StronglySorted (λ x y, (x.1 < y.1)%Z) (counts_by_year sort_values years) ∧
    (∀ y n, (y, n) ∈ counts_by_year sort_values years ↔
            y ∈ years ∧ n = occurrences y years) ∧
    (years ≡ₚ [1965; 1965; 1970]%Z →
     counts_by_year sort_values years = [(1965%Z, 2); (1970%Z, 1)]).
Proof.
  intros Hcol.
  exists (with_release_year to_datetime albums_df),
         (parsed_years (to_datetime (publication_dates albums_df))).
  split; [by apply release_years_eq|]. split; [done|].
  split; [by apply counts_by_year_ascending|].
  split; [intros y n; by apply elem_of_counts_by_year|].
  intros Hperm. rewrite (counts_by_year_Permutation _ sort_values_spec _ _ Hperm).
  by rewrite counts_by_year_eq.
Qed.

Lemma year_bar_nonempty (albums_df : DataFrame) :
  counts_by_year sort_values (parsed_years (to_datetime (publication_dates albums_df))) ≠ [] ↔
  some_date_parses to_datetime albums_df.
Proof.
  rewrite (counts_by_year_nil _ sort_values_spec), parsed_years_nil.
  split; [|tauto]. intros Hsome.
  destruct (parsed_years (to_datetime (publication_dates albums_df))) as [|y years] eqn:Hyears.
  - destruct Hsome. by apply parsed_years_nil.
  - assert (y ∈ parsed_years (to_datetime (publication_dates albums_df))) as Hin
      by (rewrite Hyears; by left).
    apply elem_of_parsed_years in Hin as (i & t & Hi & _). by exists i, t.
Qed.

Lemma performer_bar_nonempty (albums_df : DataFrame) :
  head 10 (value_counts sort_values (performer_labels albums_df)) ≠ [] ↔
  some_performer_named albums_df.
Proof.
  rewrite head_nil, (value_counts_nil _ _ sort_values_spec), performer_labels_nil.
  split; [|tauto]. intros Hsome.
  destruct (performer_labels albums_df) as [|p labels] eqn:Hlabels.
  - destruct Hsome. by apply performer_labels_nil.
  - assert (0 < albums_of p albums_df) as Hpos
      by (apply elem_of_performer_labels; rewrite Hlabels; by left).
    unfold albums_of in Hpos.
    destruct (filter _ (rows albums_df)) as [|row l] eqn:Hrows; [simpl in Hpos; lia|].
    assert (row ∈ filter (λ row : gmap string cell, row !! "performerLabel" = Some p)
                         (rows albums_df)) as Hin by (rewrite Hrows; by left).
    apply list_elem_of_filter in Hin as [Hlabel Hrow].
    apply list_elem_of_lookup in Hrow as [i Hi]. by exists i, row, p.
Qed.

(** C8, as the code has it. Scatter plot input: when the albums table
    has both columns, a date that parses and a row that names a
    performer, the report shows the scatter plot last, and its points
    are the pairs of performer label and release year of all the rows of
    the albums table that have a performer label and a date that parses,
    whatever the rank of the performer; no other point is plotted.  A
    report that lacks one of the four ends with an exception. *)
Theorem scatter_plots_every_dated_row (singers_df songs_df albums_df : DataFrame)
    (w : world) :
  ("publicationDate" ∈ columns albums_df →
   "performerLabel" ∈ columns albums_df →
   some_date_parses to_datetime albums_df →
   some_performer_named albums_df →
   ∃ (g : Globals.t) (w' : world) (points : list (cell * cell)),
     render to_datetime sort_values singers_df songs_df albums_df w = (Ok g, w') ∧
     last (figures w') = Some (Scatter points) ∧
     (∀ i row performer t,
        rows albums_df !! i = Some row →
        row !! "performerLabel" = Some performer →
        to_datetime (publication_dates albums_df) !! i = Some (Some t) →
        (performer, Num (year t)) ∈ points) ∧
     (∀ point, point ∈ points →
        ∃ i row t,
          rows albums_df !! i = Some row ∧
          row !! "performerLabel" = Some point.1 ∧
          to_datetime (publication_dates albums_df) !! i = Some (Some t) ∧
          point.2 = Num (year t))) ∧
  (∀ g w',
     render to_datetime sort_values singers_df songs_df albums_df w = (Ok g, w') →
     "publicationDate" ∈ columns albums_df ∧
     "performerLabel" ∈ columns albums_df ∧
     some_date_parses to_datetime albums_df ∧
     some_performer_named albums_df).
Proof.
  split.
  2:{ intros g w' Hrender.
      destruct (render_Ok _ _ _ _ _ _ Hrender) as (Hdate & Hperformer & Hyears & Hcounts).
      split_and!; [done|done| |].
      - by apply year_bar_nonempty.
      - by apply performer_bar_nonempty. }
  intros Hdate Hperformer Hyears%year_bar_nonempty Hcounts%performer_bar_nonempty.
  pose proof (render_eq singers_df songs_df albums_df w Hdate Hperformer Hyears Hcounts)
    as Hrender.
  cbv zeta in Hrender. eexists _, _, _. split; [exact Hrender|]. cbn [figures].
  split; [by rewrite last_app|]. split.
  - intros i row performer t Hrow Hlabel Ht.
    destruct (lookup_rows_with_release_year albums_df i row Hrow) as (t' & Ht' & Hrow').
    assert (t' = Some t) as -> by congruence.
    apply list_elem_of_omap. eexists. split; [by eapply list_elem_of_lookup_2|].
    unfold point_of.
    rewrite (lookup_set_cell_ne "release_year" "performerLabel") by done.
    rewrite (lookup_set_cell_ne "publicationDate" "performerLabel") by done.
    by rewrite Hlabel, lookup_set_cell_eq.
  - intros [performer y] Hpoint. simpl.
    apply list_elem_of_omap in Hpoint as (row' & Hin & Hpoint).
    apply list_elem_of_lookup in Hin as [i Hi].
    destruct (lookup_lt_is_Some_2 (rows albums_df) i) as [row Hrow].
    { rewrite <- length_rows_with_release_year. by eapply lookup_lt_Some. }
    destruct (lookup_rows_with_release_year albums_df i row Hrow) as (t & Ht & Hrow').
    assert (row' = set_cell "release_year"
                     (set_cell "publicationDate" row (Datetime <$> t))
                     ((λ d, Num (year d)) <$> t)) as -> by congruence.
    unfold point_of in Hpoint.
    rewrite (lookup_set_cell_ne "release_year" "performerLabel") in Hpoint by done.
    rewrite (lookup_set_cell_ne "publicationDate" "performerLabel") in Hpoint by done.
    rewrite lookup_set_cell_eq in Hpoint.
    destruct (row !! "performerLabel") as [p|] eqn:Hlabel; simpl in Hpoint; [|done].
    destruct t as [t|]; simpl in Hpoint; [|done].
    injection Hpoint as <- <-. by exists i, row, t.
Qed.

End Report.

Section Run.

Context (to_datetime : Series → list (option Timestamp)).
Hypothesis to_datetime_length : ∀ series, length (to_datetime series) = length series.
Context (sort_values : ∀ K : Type, list (K * nat) → list (K * nat)).
Context (version_info : nat * nat).
Context (endpoint : nat → WikiDataQueryResults → res Response).
Context (query_singers query_songs query_albums : string).

Lemma main_Ok (w w' : world) (g : Globals.t) :
  main version_info endpoint to_datetime sort_values
    query_singers query_songs query_albums w
    = (Ok g, w') →
  ∃ (singers_df songs_df albums_df : DataFrame) (w1 : world),
    fetch version_info endpoint query_singers query_songs query_albums w
      = (Ok (singers_df, songs_df, albums_df), w1) ∧
    "publicationDate" ∈ columns albums_df ∧
    "performerLabel" ∈ columns albums_df ∧
    Globals.singers_df g = singers_df ∧
    Globals.songs_df g = songs_df ∧
    Globals.albums_df g = with_release_year to_datetime albums_df.
Proof.
  unfold main, mbind, Script_bind.
  destruct (fetch _ _ _ _ _ w) as [[[[singers_df songs_df] albums_df]|e] w1]; [|done].
  intros Hrender.
  destruct (render_Ok _ to_datetime_length _ _ _ _ _ _ _ Hrender)
    as (Hdate & Hperformer & Hyears & Hcounts).
  rewrite (render_eq _ to_datetime_length) in Hrender by done.
  injection Hrender as <- <-.
  by exists singers_df, songs_df, albums_df, w1.
Qed.

(** C9, as the code has it. The tables after a run: the singers and songs tables
    are the ones fetched.  The albums table is the fetched one after the
    date step of lines 130 and 131, which changes it in place: it gains
    the column [release_year], its dates are replaced by the parsed
    timestamps (missing where the date does not parse); it keeps the
    number and order of its rows and the values of every other column.
    The charts leave it as the date step made it. *)
Theorem tables_after_run (w w' : world) (g : Globals.t) :
  main version_info endpoint to_datetime sort_values
    query_singers query_songs query_albums w
    = (Ok g, w') →
  ∃ (singers_df songs_df albums_df : DataFrame) (w1 : world),
    fetch version_info endpoint query_singers query_songs query_albums w
      = (Ok (singers_df, songs_df, albums_df), w1) ∧
    Globals.singers_df g = singers_df ∧
    Globals.songs_df g = songs_df ∧
    Globals.albums_df g = with_release_year to_datetime albums_df ∧
    columns (Globals.albums_df g) = columns albums_df ∪ {["release_year"]} ∧
    length (rows (Globals.albums_df g)) = length (rows albums_df) ∧
    ∀ i row, rows albums_df !! i = Some row →
      ∃ row' t,
        rows (Globals.albums_df g) !! i = Some row' ∧
        to_datetime (publication_dates albums_df) !! i = Some t ∧
        row' !! "publicationDate" = Datetime <$> t ∧
        row' !! "release_year" = (λ d, Num (year d)) <$> t ∧
        ∀ c, c ≠ "publicationDate" → c ≠ "release_year" → row' !! c = row !! c.
Proof.
  intros Hmain.
  destruct (main_Ok w w' g Hmain)
    as (singers_df & songs_df & albums_df & w1 & Hfetch & Hdate & _ & Hs & Hg & Ha).
  exists singers_df, songs_df, albums_df, w1. rewrite Ha.
  split_and!; [done..| | |].
  - rewrite columns_with_release_year. set_solver.
  - by apply length_rows_with_release_year.
  - intros i row Hrow.
    destruct (lookup_rows_with_release_year _ to_datetime_length albums_df i row Hrow)
      as (t & Ht & Hrow').
    eexists _, t. split; [exact Hrow'|]. split; [done|]. split_and!.
    + rewrite (lookup_set_cell_ne "release_year" "publicationDate") by done.
      by rewrite lookup_set_cell_eq.
    + by rewrite lookup_set_cell_eq.
    + intros c Hc1 Hc2. by rewrite !lookup_set_cell_ne.
Qed.

End Run.

(** * Examples *)

Lemma sample_to_datetime_length (series : Series) :
  length (Sample.to_datetime series) = length series.
Proof. apply length_fmap. Qed.

Example parse_iso8601_1965 :
  year <$> Sample.parse_iso8601 "1965-01-01T00:00:00Z" = Some 1965%Z.
Proof. reflexivity. Qed.

Example parse_iso8601_unknown : Sample.parse_iso8601 "unknown" = None.
Proof. reflexivity. Qed.

(** The two sorts agree on the counts and differ on the order of equal
    counts. *)
Example value_counts_ties :
  value_counts Sample.sort_values ["b"; "a"; "c"; "a"; "c"; "d"] =
    [("a", 2); ("c", 2); ("b", 1); ("d", 1)] ∧
  value_counts Sample.sort_values_ties_reversed ["b"; "a"; "c"; "a"; "c"; "d"] =
    [("c", 2); ("a", 2); ("d", 1); ("b", 1)].
Proof. split; reflexivity. Qed.

(** The end-to-end scenario of the spec: (A, 1965), (A, 1970), (B, 1965). *)
Example end_to_end :
  let albums_df :=
    Sample.albums_table [Sample.album "Performer A" "1965-01-01T00:00:00Z";
                         Sample.album "Performer A" "1970-01-01T00:00:00Z";
                         Sample.album "Performer B" "1965-01-01T00:00:00Z"] in
  ∃ albums_df',
    release_years Sample.to_datetime albums_df = Ok (albums_df', [1965; 1970; 1965]%Z) ∧
    counts_by_year Sample.sort_values [1965; 1970; 1965]%Z = [(1965%Z, 2); (1970%Z, 1)] ∧
    head 10 <$> performer_album_counts Sample.sort_values albums_df' =
      Ok [(Str "Performer A", 2); (Str "Performer B", 1)].
Proof.
  intros albums_df. eexists. split; [|split].
  - apply release_years_eq; [apply sample_to_datetime_length|by vm_compute].
  - reflexivity.
  - by vm_compute.
Qed.

Lemma flattening_correct_witness :
  let row : RawBinding :=
    {[ "a" := Sample.literal "x"; "b" := Sample.literal "y" ]} in
  well_formed_row row ∧
  ∃ flat : FlatRow,
    transform2dicts [row] = Ok [flat] ∧
    transform2dicts_any (Rows [shaped_row row]) = Ok [flat] ∧
    flat !! "a" = Some "x" ∧ flat !! "b" = Some "y" ∧ flat !! "type" = None.
Proof.
  intros row.
  assert (well_formed_row row) as Hwf by compute_done.
  split; [exact Hwf|].
  destruct (flattening_correct row Hwf) as (flat & Hflat & Hany & Hdom & Hvalue & _).
  exists flat. split; [exact Hflat|]. split; [exact Hany|]. split_and!.
  - by rewrite (Hvalue "a" (Sample.literal "x")).
  - by rewrite (Hvalue "b" (Sample.literal "y")).
  - apply not_elem_of_dom. rewrite Hdom. by vm_compute.
Defined.

Lemma row_count_and_order_preserved_witness :
  let results : list RawBinding :=
    [ {[ "a" := Sample.literal "x"; "b" := Sample.literal "y" ]};
      {[ "a" := Sample.literal "z" ]} ] in
  Forall well_formed_row results ∧
  ∃ flats : list FlatRow,
    transform2dicts results = Ok flats ∧
    transform2dicts_any (Rows (shaped_row <$> results)) = Ok flats ∧
    length flats = 2 ∧
    ∃ flat, flats !! 1 = Some flat ∧ flat !! "a" = Some "z".
Proof.
  intros results.
  assert (Forall well_formed_row results) as Hwf by compute_done.
  split; [exact Hwf|].
  destruct (row_count_and_order_preserved results Hwf)
    as (flats & Hflats & Hany & Hlen & _ & Hrows).
  exists flats. split; [exact Hflats|]. split; [exact Hany|]. split; [exact Hlen|].
  destruct (Hrows 1 {[ "a" := Sample.literal "z" ]} eq_refl)
    as (flat & Hflat & _ & Hvalue & _).
  exists flat. split; [exact Hflat|]. by rewrite Hvalue.
Defined.

Lemma sparse_row_handling_witness :
  let row1 : RawBinding := {[ "a" := Sample.literal "x"; "b" := Sample.literal "y" ]} in
  let row2 : RawBinding := {[ "a" := Sample.literal "z" ]} in
  let endpoint := Sample.endpoint_of (Ok (shaped (Sample.document [row1; row2]))) in
  (well_formed_row row1 ∧ well_formed_row row2 ∧ "a" ≠ "b" ∧
   dom row1 = {[ "a"; "b" ]} ∧ dom row2 = {[ "a" ]}) ∧
  ∃ df : DataFrame,
    (execute_query endpoint Sample.request Sample.start).1 = Ok df ∧
    columns df = {[ "a"; "b" ]} ∧
    ∃ second, rows df !! 1 = Some second ∧ second !! "b" = None.
Proof.
  intros row1 row2 endpoint.
  assert (well_formed_row row1) as Hwf1 by compute_done.
  assert (well_formed_row row2) as Hwf2 by compute_done.
  assert ("a" ≠ "b") as Hab by done.
  assert (dom row1 = {[ "a"; "b" ]}) as Hdom1 by compute_done.
  assert (dom row2 = {[ "a" ]}) as Hdom2 by compute_done.
  split; [done|].
  destruct (sparse_row_handling endpoint Sample.request Sample.start
              (Sample.document [row1; row2]) {[ "bindings" := [row1; row2] ]}
              "a" "b" row1 row2 eq_refl eq_refl eq_refl Hwf1 Hwf2 Hab Hdom1 Hdom2)
    as (df & flat1 & flat2 & Hdf & _ & Hrows & Hcols & _ & _ & Hb & _).
  exists df. split; [by rewrite Hdf|]. split; [exact Hcols|].
  exists (Str <$> flat2). split; [by rewrite Hrows|exact Hb].
Defined.

Lemma empty_result_witness :
  (Sample.document [] !! "results" = Some {[ "bindings" := [] ]}) ∧
  execute_query (Sample.endpoint_of (Ok (shaped (Sample.document []))))
    Sample.request Sample.start
    = (Ok {| columns := ∅; rows := [] |}, after_request Sample.start).
Proof.
  split; [done|].
  by destruct (empty_result (Sample.endpoint_of (Ok (shaped (Sample.document []))))
                 Sample.request Sample.start (Sample.document [])
                 {[ "bindings" := [] ]} eq_refl eq_refl eq_refl).
Defined.

(** A failure of the endpoint, and a response whose second row has a
    member that is no object after a binding with a value. *)
Lemma execute_query_failure_mode_witness :
  let failing := Sample.endpoint_of (Raise EndPointInternalError) in
  let good : string * binding_slot := ("a", ABinding (Sample.literal "x")) in
  let row := ARow [good; ("b", NotAnObject); ("c", ABinding ∅)] in
  let odd :=
    Sample.endpoint_of
      (Ok (TopObject {[ "results" :=
             ResultsObject {[ "bindings" := Rows [ARow [good]; row; RowNotIterable] ]} ]})) in
  execute_query failing Sample.request Sample.start
    = (Raise EndPointInternalError, after_request Sample.start) ∧
  execute_query odd Sample.request Sample.start
    = (Raise TypeError, after_request Sample.start).
Proof.
  intros failing good row odd. split.
  - destruct (execute_query_failure_mode failing Sample.request Sample.start)
      as (Hworld & Hraise & _).
    specialize (Hraise EndPointInternalError eq_refl).
    destruct (execute_query failing Sample.request Sample.start) as [r w'].
    simpl in *. by subst.
  - destruct (execute_query_failure_mode odd Sample.request Sample.start)
      as (Hworld & _ & _ & Hobject & (_ & _ & _ & _ & _ & _ & Hmember & _) & _).
    destruct (Hobject _ eq_refl) as (_ & _ & Hresults).
    destruct (Hresults _ eq_refl) as (_ & _ & _ & _ & _ & _ & Hbindings).
    destruct (Hbindings _ eq_refl) as [Hfirst _].
    assert (has_value good) as Hgood by (by exists (Sample.literal "x"), "x").
    specialize (Hfirst [ARow [good]] row [RowNotIterable] TypeError eq_refl
                  ltac:(by repeat constructor)
                  (Hmember [good] "b" [("c", ABinding ∅)] ltac:(by repeat constructor))).
    destruct (execute_query odd Sample.request Sample.start) as [r w'].
    simpl in *. by subst.
Defined.

Lemma top10_performer_view_witness :
  let performers : list cell := Str <$> Sample.fifteen_performers.*1 in
  ("performerLabel" ∈ columns Sample.fifteen_albums ∧
   NoDup performers ∧ length performers = 15 ∧
   (∀ p, p ∈ performers ↔ 0 < albums_of p Sample.fifteen_albums) ∧
   NoDup ((λ p, albums_of p Sample.fifteen_albums) <$> performers)) ∧
  ∃ counts : list (cell * nat),
    performer_album_counts Sample.sort_values Sample.fifteen_albums = Ok counts ∧
    (Str "P15", 15) ∈ counts ∧
    length (head 10 counts) = 10 ∧
    StronglySorted (λ x y, y.2 < x.2) (head 10 counts).
Proof.
  intros performers.
  assert ("performerLabel" ∈ columns Sample.fifteen_albums) as Hcol by compute_done.
  assert (NoDup performers) as Hnodup by compute_done.
  assert (length performers = 15) as H15 by reflexivity.
  assert (∀ p, p ∈ performers ↔ 0 < albums_of p Sample.fifteen_albums) as Hall.
  { intros p. rewrite <- elem_of_performer_labels.
    rewrite <- (elem_of_first_seen p (performer_labels Sample.fifteen_albums)).
    assert (first_seen (performer_labels Sample.fifteen_albums) = performers) as ->
      by (vm_compute; reflexivity).
    done. }
  assert (NoDup ((λ p, albums_of p Sample.fifteen_albums) <$> performers))
    as Hdistinct by compute_done.
  split; [by split_and!|].
  destruct (top10_performer_view Sample.sort_values sort_values_spec
              Sample.fifteen_albums Hcol)
    as (counts & Hcounts & _ & Hin & _ & _ & _ & Hperformers).
  destruct (Hperformers performers Hnodup Hall) as (_ & _ & Hfifteen).
  destruct (Hfifteen H15 Hdistinct) as (Hlen & Hsorted & _).
  exists counts. split; [exact Hcounts|]. split; [|by split].
  apply Hin. split; [lia|]. vm_compute. reflexivity.
Defined.

Lemma unparseable_date_excluded_witness :
  ("publicationDate" ∈ columns Sample.three_albums ∧
   Sample.three_albums.(rows) !! 1 = Some (Sample.album "Performer A" "unknown") ∧
   Sample.to_datetime (publication_dates Sample.three_albums) !! 1 = Some None) ∧
  ∃ (albums_df' : DataFrame) (years : list Z),
    release_years Sample.to_datetime Sample.three_albums = Ok (albums_df', years) ∧
    length (rows albums_df') = 3 ∧
    counts_by_year Sample.sort_values years = [(1965%Z, 1); (1970%Z, 1)].
Proof.
  assert ("publicationDate" ∈ columns Sample.three_albums) as Hcol by compute_done.
  split; [done|].
  destruct (unparseable_date_excluded Sample.to_datetime sample_to_datetime_length
              Sample.sort_values
              Sample.three_albums 1 (Sample.album "Performer A" "unknown")
              (Str "unknown") Hcol eq_refl eq_refl eq_refl)
    as (albums_df' & years & Hyears & Hlen & _ & _ & Hcounts).
  exists albums_df', years. split; [exact Hyears|]. split; [exact Hlen|].
  by rewrite Hcounts.
Defined.

Lemma counts_by_year_grouping_witness :
  ("publicationDate" ∈ columns Sample.albums_1965_1965_1970 ∧
   parsed_years (Sample.to_datetime (publication_dates Sample.albums_1965_1965_1970))
     ≡ₚ [1965; 1965; 1970]%Z) ∧
  ∃ (albums_df' : DataFrame) (years : list Z),
    release_years Sample.to_datetime Sample.albums_1965_1965_1970
      = Ok (albums_df', years) ∧
    counts_by_year Sample.sort_values_ties_reversed years = [(1965%Z, 2); (1970%Z, 1)].
Proof.
  assert ("publicationDate" ∈ columns Sample.albums_1965_1965_1970) as Hcol
    by compute_done.
  assert (parsed_years (Sample.to_datetime (publication_dates Sample.albums_1965_1965_1970))
            ≡ₚ [1965; 1965; 1970]%Z) as Hperm by (by vm_compute).
  split; [done|].
  destruct (counts_by_year_grouping Sample.to_datetime sample_to_datetime_length
              Sample.sort_values_ties_reversed sort_values_ties_reversed_spec
              Sample.albums_1965_1965_1970 Hcol)
    as (albums_df' & years & Hyears & -> & _ & _ & Hcounts).
  eexists _, _. split; [exact Hyears|]. by apply Hcounts.
Defined.

Lemma scatter_plots_every_dated_row_witness :
  ("publicationDate" ∈ columns Sample.eleven_albums ∧
   "performerLabel" ∈ columns Sample.eleven_albums ∧
   some_date_parses Sample.to_datetime Sample.eleven_albums ∧
   some_performer_named Sample.eleven_albums) ∧
  ∃ (g : Globals.t) (w' : world) (points : list (cell * cell)),
    render Sample.to_datetime Sample.sort_values Sample.eleven_albums Sample.eleven_albums
      Sample.eleven_albums Sample.start = (Ok g, w') ∧
    last (figures w') = Some (Scatter points) ∧
    (Str "K", Num 1990) ∈ points.
Proof.
  assert ("publicationDate" ∈ columns Sample.eleven_albums) as Hdate by compute_done.
  assert ("performerLabel" ∈ columns Sample.eleven_albums) as Hperformer by compute_done.
  assert (some_date_parses Sample.to_datetime Sample.eleven_albums) as Hparses.
  { exists 0, {| year := 1990; month := 1; day := 1; hour := 0; minute := 0; second := 0 |}.
    reflexivity. }
  assert (some_performer_named Sample.eleven_albums) as Hnamed.
  { exists 0, (Sample.album "A" "1990-01-01T00:00:00Z"), (Str "A"). split; reflexivity. }
  split; [done|].
  destruct (scatter_plots_every_dated_row Sample.to_datetime sample_to_datetime_length
              Sample.sort_values sort_values_spec
              Sample.eleven_albums Sample.eleven_albums Sample.eleven_albums
              Sample.start) as [Hplots _].
  destruct (Hplots Hdate Hperformer Hparses Hnamed)
    as (g & w' & points & Hrender & Hlast & Hall & _).
  exists g, w', points. split; [exact Hrender|]. split; [exact Hlast|].
  by apply (Hall 10 (Sample.album "K" "1990-01-01T00:00:00Z") (Str "K")
              {| year := 1990; month := 1; day := 1; hour := 0; minute := 0; second := 0 |}).
Defined.

Lemma tables_after_run_witness :
  ∃ (g : Globals.t) (w' : world),
    main (3, 11) Sample.two_albums_endpoint Sample.to_datetime Sample.sort_values
      "singers" "songs" "albums" Sample.start = (Ok g, w') ∧
    "release_year" ∈ columns (Globals.albums_df g).
Proof.
  assert (returned (main (3, 11) Sample.two_albums_endpoint Sample.to_datetime
                      Sample.sort_values "singers" "songs" "albums" Sample.start).1 = true)
    as Hreturned by (vm_compute; reflexivity).
  destruct (main (3, 11) Sample.two_albums_endpoint Sample.to_datetime Sample.sort_values
              "singers" "songs" "albums" Sample.start) as [[g|e] w'] eqn:Hmain;
    [|discriminate Hreturned].
  exists g, w'. split; [reflexivity|].
  destruct (tables_after_run Sample.to_datetime sample_to_datetime_length
              Sample.sort_values (3, 11)
              Sample.two_albums_endpoint "singers" "songs" "albums"
              Sample.start w' g Hmain)
    as (singers_df & songs_df & albums_df & w1 & _ & _ & _ & _ & Hcols & _).
  rewrite Hcols. apply elem_of_union_r, elem_of_singleton. reflexivity.
Defined.

(** The scatter plot is not restricted to the top-10 view: of eleven
    performers with one album each, the eleventh is outside the view
    and is plotted. *)
Lemma scatter_plots_outside_top10 :
  ¬ scatter_restricted_to_top10 Sample.to_datetime Sample.sort_values Sample.eleven_albums.
Proof.
  intros Hclaim.
  pose proof (release_years_eq Sample.to_datetime sample_to_datetime_length
                Sample.eleven_albums ltac:(compute_done)) as Hyears.
  pose proof (performer_album_counts_eq Sample.sort_values
                (with_release_year Sample.to_datetime Sample.eleven_albums)
                ltac:(compute_done)) as Hcounts.
  pose proof (scatterplot_eq Sample.to_datetime sample_to_datetime_length
                Sample.eleven_albums ltac:(compute_done)) as Hpoints.
  specialize (Hclaim _ _ _ _ Hyears Hcounts Hpoints (Str "K", Num 1990)).
  revert Hclaim. compute_done.
Qed.

(** The albums table does not stay as fetched: after a run it has the
    column [release_year], which the fetched table has not. *)
Lemma albums_table_changed_by_run :
  ¬ albums_table_unchanged (3, 11) Sample.two_albums_endpoint Sample.to_datetime
      Sample.sort_values "singers" "songs" "albums".
Proof.
  intros Hclaim.
  assert (returned (main (3, 11) Sample.two_albums_endpoint Sample.to_datetime
                      Sample.sort_values "singers" "songs" "albums" Sample.start).1 = true)
    as Hreturned by (vm_compute; reflexivity).
  assert (match (fetch (3, 11) Sample.two_albums_endpoint
                   "singers" "songs" "albums" Sample.start).1 with
          | Ok (_, _, albums_df) => bool_decide ("release_year" ∈ columns albums_df)
          | Raise _ => false
          end = false) as Hfetched by (vm_compute; reflexivity).
  destruct (main (3, 11) Sample.two_albums_endpoint Sample.to_datetime Sample.sort_values
              "singers" "songs" "albums" Sample.start) as [[g|e] w'] eqn:Hmain;
    [|discriminate Hreturned].
  destruct (main_Ok Sample.to_datetime sample_to_datetime_length _ _ _ _ _ _ _ _ _ Hmain)
    as (singers_df & songs_df & albums_df & w1 & Hfetch & _ & _ & _ & _ & Hfinal).
  specialize (Hclaim _ _ _ _ _ _ _ Hfetch Hmain).
  rewrite Hfetch in Hfetched. simpl in Hfetched.
  apply bool_decide_eq_false in Hfetched. apply Hfetched.
  rewrite <- Hclaim, Hfinal, columns_with_release_year.
  apply elem_of_union_r, elem_of_singleton. reflexivity.
Qed.

(** * Further properties of the program *)

(** ** Flattening: failure, composition, independence of metadata *)

(** X1. A binding without [value] anywhere in the response makes the
    whole flattening fail with [KeyError: 'value']: no list of rows is
    returned, not even the rows before the faulty one. *)
Theorem missing_value_raises (results : list RawBinding) (row : RawBinding)
    (key : string) (binding : Binding) :
  row ∈ results →
  row !! key = Some binding →
  binding !! "value" = None →
  transform2dicts results = Raise (KeyError "value").
Proof.
  intros Hrow Hkey Hvalue.
  destruct (transform2dicts results) as [flats|e] eqn:Hres.
  - apply transform2dicts_Ok in Hres.
    apply list_elem_of_lookup in Hrow as [i Hi].
    destruct (Forall2_lookup_l _ _ _ _ _ Hres Hi) as (flat & _ & Hflat).
    apply transform_row_Ok in Hflat as [Hwf _].
    destruct (Hwf key binding Hkey) as [v Hv]. congruence.
  - by apply transform2dicts_Raise in Hres as [-> _].
Qed.

(** X2. Flattening distributes over concatenation: the rows of two
    lists of bindings put end to end are flattened to the FlatRows of
    the first followed by those of the second, and the whole fails as
    soon as one part fails. *)
Theorem transform2dicts_app (results1 results2 : list RawBinding) :
  transform2dicts (results1 ++ results2) =
  flats1 ← transform2dicts results1;
  flats2 ← transform2dicts results2;
  Ok (flats1 ++ flats2).
Proof. rewrite !transform2dicts_mapM. apply mapM_res_app. Qed.

(** X3. Flattening reads nothing but [value]: two rows with the same
    variables whose bindings agree on [value] are flattened to the same
    FlatRow, whatever their other members ([type], [datatype],
    [xml:lang]) are. *)
Theorem flattening_ignores_metadata (row1 row2 : RawBinding) :
  well_formed_row row1 →
  dom row1 = dom row2 →
  (∀ key binding1 binding2,
     row1 !! key = Some binding1 → row2 !! key = Some binding2 →
     binding1 !! "value" = binding2 !! "value") →
  transform_row row1 = transform_row row2.
Proof.
  intros Hwf1 Hdom Hvalue.
  assert (well_formed_row row2) as Hwf2.
  { intros key binding2 Hkey2.
    destruct (row1 !! key) as [binding1|] eqn:Hkey1.
    - rewrite <- (Hvalue key binding1 binding2 Hkey1 Hkey2).
      exact (Hwf1 key binding1 Hkey1).
    - apply (not_elem_of_dom (D:=gset string)) in Hkey1. rewrite Hdom in Hkey1.
      destruct Hkey1. apply elem_of_dom. by eauto. }
  destruct (transform_row_spec row1 Hwf1) as (flat1 & -> & Hflat1).
  destruct (transform_row_spec row2 Hwf2) as (flat2 & -> & Hflat2).
  f_equal. apply map_eq. intros key. rewrite Hflat1, Hflat2.
  destruct (row1 !! key) as [binding1|] eqn:Hkey1;
    destruct (row2 !! key) as [binding2|] eqn:Hkey2; simpl.
  - by apply (Hvalue key).
  - apply (not_elem_of_dom (D:=gset string)) in Hkey2. rewrite <- Hdom in Hkey2.
    destruct Hkey2. apply elem_of_dom. by eauto.
  - apply (not_elem_of_dom (D:=gset string)) in Hkey1. rewrite Hdom in Hkey1.
    destruct Hkey1. apply elem_of_dom. by eauto.
  - done.
Qed.

(** ** The table of a fetch *)

Lemma execute_query_answer (endpoint : nat → WikiDataQueryResults → res Response)
    (self : WikiDataQueryResults) (w : world) :
  execute_query endpoint self w = (answer endpoint (requests w) self, after_request w).
Proof. apply execute_query_eq. Qed.


(** ** The three fetches of the script *)

Section Fetches.

Context (version_info : nat * nat).
Context (endpoint : nat → WikiDataQueryResults → res Response).
Context (query_singers query_songs query_albums : string).

Lemma fetch_eq (w : world) :
  fetch version_info endpoint query_singers query_songs query_albums w =
  match answer endpoint (requests w) (init version_info query_singers) with
  | Raise e => (Raise e, after_request w)
  | Ok singers_df =>
    match answer endpoint (S (requests w)) (init version_info query_songs) with
    | Raise e =>
        (Raise e,
         {| requests := 2 + requests w;
            stdout := stdout w ++ [Text singers_caption; Table singers_df];
            figures := figures w |})
    | Ok songs_df =>
      match answer endpoint (S (S (requests w))) (init version_info query_albums) with
      | Raise e =>
          (Raise e,
           {| requests := 3 + requests w;
              stdout := stdout w ++ [Text singers_caption; Table singers_df;
                                     Text songs_caption; Table songs_df];
              figures := figures w |})
      | Ok albums_df =>
          (Ok (singers_df, songs_df, albums_df),
           {| requests := 3 + requests w;
              stdout := stdout w ++ [Text singers_caption; Table singers_df;
                                     Text songs_caption; Table songs_df;
                                     Text albums_caption; Table albums_df];
              figures := figures w |})
      end
    end
  end.
Proof.
  unfold fetch, get_wikidata_results.
  unfold mbind at 1. unfold Script_bind. rewrite execute_query_answer.
  destruct (answer endpoint (requests w) _) as [singers_df|e]; [|done].
  unfold mbind at 1 2 3. unfold Script_bind, print. cbn [requests stdout figures after_request].
  rewrite execute_query_answer. cbn [requests stdout figures after_request].
  destruct (answer endpoint (S (requests w)) _) as [songs_df|e].
  2:{ unfold after_request. cbn [requests stdout figures]. by rewrite <- !app_assoc. }
  unfold mbind at 1 2 3. unfold Script_bind. cbn [requests stdout figures after_request].
  rewrite execute_query_answer. cbn [requests stdout figures after_request].
  destruct (answer endpoint (S (S (requests w))) _) as [albums_df|e].
  2:{ unfold after_request. cbn [requests stdout figures]. by rewrite <- !app_assoc. }
  unfold mbind, Script_bind, mret, Script_ret, after_request.
  cbn [requests stdout figures]. by rewrite <- !app_assoc.
Qed.

(** X5. The three queries are sent one after the other, singers, songs,
    albums, on three consecutive round trips; when all three succeed the
    script has printed each caption followed by its table, in that
    order, and has drawn nothing. *)
Theorem fetch_in_order (w : world) (singers_df songs_df albums_df : DataFrame) :
  answer endpoint (requests w) (init version_info query_singers) = Ok singers_df →
  answer endpoint (S (requests w)) (init version_info query_songs) = Ok songs_df →
  answer endpoint (S (S (requests w))) (init version_info query_albums) = Ok albums_df →
  fetch version_info endpoint query_singers query_songs query_albums w =
  (Ok (singers_df, songs_df, albums_df),
   {| requests := 3 + requests w;
      stdout := stdout w ++ [Text singers_caption; Table singers_df;
                             Text songs_caption; Table songs_df;
                             Text albums_caption; Table albums_df];
      figures := figures w |}).
Proof. intros H1 H2 H3. by rewrite fetch_eq, H1, H2, H3. Qed.

(** X6. The script stops at the first query that fails: the exception
    leaves [fetch] as it is, no later query is sent, and only the tables
    fetched before have been printed. *)
Theorem fetch_stops_at_first_failure (w : world) :
  (∀ e,
     answer endpoint (requests w) (init version_info query_singers) = Raise e →
     fetch version_info endpoint query_singers query_songs query_albums w =
     (Raise e, {| requests := 1 + requests w; stdout := stdout w; figures := figures w |})) ∧
  (∀ singers_df e,
     answer endpoint (requests w) (init version_info query_singers) = Ok singers_df →
     answer endpoint (S (requests w)) (init version_info query_songs) = Raise e →
     fetch version_info endpoint query_singers query_songs query_albums w =
     (Raise e, {| requests := 2 + requests w;
                  stdout := stdout w ++ [Text singers_caption; Table singers_df];
                  figures := figures w |})) ∧
  (∀ singers_df songs_df e,
     answer endpoint (requests w) (init version_info query_singers) = Ok singers_df →
     answer endpoint (S (requests w)) (init version_info query_songs) = Ok songs_df →
     answer endpoint (S (S (requests w))) (init version_info query_albums) = Raise e →
     fetch version_info endpoint query_singers query_songs query_albums w =
     (Raise e, {| requests := 3 + requests w;
                  stdout := stdout w ++ [Text singers_caption; Table singers_df;
                                         Text songs_caption; Table songs_df];
                  figures := figures w |})).
Proof.
  split_and!.
  - intros e H1. by rewrite fetch_eq, H1.
  - intros singers_df e H1 H2. by rewrite fetch_eq, H1, H2.
  - intros singers_df songs_df e H1 H2 H3. by rewrite fetch_eq, H1, H2, H3.
Qed.


End Fetches.

(** ** Counters add up *)

Section Sums.

Context {K : Type} `{EqDecision K}.

Lemma sum_bump (k : K) (counts : list (K * nat)) :
  sum_list (bump k counts).*2 = S (sum_list counts.*2).
Proof.
  induction counts as [|[k' n] counts IH]; csimpl; [done|].
  destruct (decide (k = k')); csimpl; [done|]. rewrite IH. lia.
Qed.

Lemma sum_tally (values : list K) : sum_list (tally values).*2 = length values.
Proof.
  induction values as [|k values IH] using rev_ind; [done|].
  rewrite tally_snoc, sum_bump, IH, length_app. simpl. lia.
Qed.

Context (sort_values : ∀ K : Type, list (K * nat) → list (K * nat)).
Hypothesis sort_values_spec : sorts_descending sort_values.

Lemma sum_value_counts (values : list K) :
  sum_list (value_counts sort_values values).*2 = length values.
Proof. by rewrite (value_counts_Permutation _ sort_values_spec), sum_tally. Qed.

End Sums.

Lemma sum_list_take_le (l : list nat) (n : nat) : sum_list (take n l) ≤ sum_list l.
Proof.
  rewrite <- (take_drop n l) at 2. rewrite sum_list_with_app. lia.
Qed.

Lemma length_parsed_years (parsed : list (option Timestamp)) :
  length (parsed_years parsed) = length (filter is_Some parsed).
Proof.
  unfold parsed_years.
  induction parsed as [|t parsed IH]; [done|].
  rewrite filter_cons. destruct (decide (is_Some t)) as [[d ->]|Hnone].
  - cbn [omap list_omap fmap option_fmap option_map length]. by f_equal.
  - destruct t as [d|]; [destruct Hnone; by eexists|]. exact IH.
Qed.

(** ** The statistics of the report *)

Section Statistics.

Context (to_datetime : Series → list (option Timestamp)).
Hypothesis to_datetime_length : ∀ series, length (to_datetime series) = length series.
Context (sort_values : ∀ K : Type, list (K * nat) → list (K * nat)).
Hypothesis sort_values_spec : sorts_descending sort_values.

Lemma release_years_Ok (albums_df albums_df' : DataFrame) (years : list Z) :
  release_years to_datetime albums_df = Ok (albums_df', years) →
  "publicationDate" ∈ columns albums_df ∧
  albums_df' = with_release_year to_datetime albums_df ∧
  years = parsed_years (to_datetime (publication_dates albums_df)).
Proof.
  intros Hyears.
  destruct (decide ("publicationDate" ∈ columns albums_df)) as [Hcol|Hcol].
  - rewrite (release_years_eq to_datetime to_datetime_length) in Hyears by done.
    by injection Hyears as <- <-.
  - by rewrite release_years_Raise in Hyears.
Qed.

(** X7. The line chart shows the data of the first bar chart: grouping
    the table by [release_year] and taking the group sizes gives, year
    for year, the counts of [release_years.value_counts().sort_index()]. *)
Theorem line_chart_shows_counts_by_year (albums_df albums_df' : DataFrame)
    (years : list Z) :
  release_years to_datetime albums_df = Ok (albums_df', years) →
  album_counts_by_year albums_df' = Ok (counts_by_year sort_values years).
Proof.
  intros (Hcol & -> & ->)%release_years_Ok.
  rewrite (album_counts_by_year_eq to_datetime to_datetime_length).
  by rewrite (counts_by_year_eq _ sort_values_spec).
Qed.

(** X8. The bars of the year chart add up to the number of albums
    whose date parsed, which is at most the number of rows of the
    table; every bar stands for at least one album. *)
Theorem year_counts_add_up (albums_df albums_df' : DataFrame) (years : list Z) :
  release_years to_datetime albums_df = Ok (albums_df', years) →
  sum_list (counts_by_year sort_values years).*2 = length years ∧
  length years = length (filter is_Some (to_datetime (publication_dates albums_df))) ∧
  length years ≤ length (rows albums_df) ∧
  ∀ y n, (y, n) ∈ counts_by_year sort_values years → 0 < n.
Proof.
  intros (Hcol & -> & ->)%release_years_Ok. split_and!.
  - by rewrite (counts_by_year_tally _ sort_values_spec), sum_tally.
  - apply length_parsed_years.
  - rewrite length_parsed_years.
    rewrite <- (length_parsed to_datetime to_datetime_length albums_df).
    apply length_filter.
  - intros y n [Hy ->]%(elem_of_counts_by_year _ sort_values_spec).
    by apply occurrences_pos.
Qed.

End Statistics.

Section PerformerSums.

Context (sort_values : ∀ K : Type, list (K * nat) → list (K * nat)).
Hypothesis sort_values_spec : sorts_descending sort_values.

(** X9. The counts by performer add up to the number of rows of the
    table that have a performer label, each counter being the number of
    rows that name its performer and none of them zero; the top-10 view
    never counts more rows than that, and when the table names at most
    10 performers it is the whole list of counters. *)
Theorem performer_counts_add_up (albums_df : DataFrame) :
  "performerLabel" ∈ columns albums_df →
  ∃ counts : list (cell * nat),
    performer_album_counts sort_values albums_df = Ok counts ∧
    sum_list counts.*2 = labelled_rows albums_df ∧
    labelled_rows albums_df ≤ length (rows albums_df) ∧
    (∀ p n, (p, n) ∈ counts → 0 < n ∧ n = albums_of p albums_df) ∧
    (∀ p, 0 < albums_of p albums_df → (p, albums_of p albums_df) ∈ counts) ∧
    sum_list (head 10 counts).*2 ≤ labelled_rows albums_df ∧
    ∀ performers : list cell,
      NoDup performers →
      (∀ p, p ∈ performers ↔ 0 < albums_of p albums_df) →
      length performers ≤ 10 →
      head 10 counts = counts.
Proof.
  intros Hcol. exists (value_counts sort_values (performer_labels albums_df)).
  split; [by apply performer_album_counts_eq|]. split_and!.
  - by rewrite (sum_value_counts _ sort_values_spec), length_performer_labels.
  - unfold labelled_rows. apply length_filter.
  - intros p n. by apply elem_of_performer_counts.
  - intros p Hp. by apply elem_of_performer_counts.
  - unfold head. rewrite <- length_performer_labels.
    rewrite <- (sum_value_counts _ sort_values_spec), fmap_take. apply sum_list_take_le.
  - intros performers Hnodup Hall Hle. unfold head. apply take_ge.
    rewrite (length_value_counts _ sort_values_spec).
    by rewrite <- (performers_first_seen albums_df performers Hnodup Hall).
Qed.

End PerformerSums.

(** ** Runs of the report and of the script *)

Section Runs.

Context (to_datetime : Series → list (option Timestamp)).
Hypothesis to_datetime_length : ∀ series, length (to_datetime series) = length series.
Context (sort_values : ∀ K : Type, list (K * nat) → list (K * nat)).
Context (version_info : nat * nat).
Context (endpoint : nat → WikiDataQueryResults → res Response).
Context (query_singers query_songs query_albums : string).


(** X12. A run whose albums query has no result does not reach the
    charts: all three round trips are made and the three tables are
    printed, the last one empty, then the date step raises
    [KeyError: 'publicationDate'] and no figure is shown. *)
Theorem run_without_albums (w : world) (singers_df songs_df : DataFrame)
    (document : Document) (results : gmap string (list RawBinding)) :
  answer endpoint (requests w) (init version_info query_singers) = Ok singers_df →
  answer endpoint (S (requests w)) (init version_info query_songs) = Ok songs_df →
  endpoint (S (S (requests w))) (init version_info query_albums) = Ok (shaped document) →
  document !! "results" = Some results →
  results !! "bindings" = Some [] →
  main version_info endpoint to_datetime sort_values
    query_singers query_songs query_albums w =
  (Raise (KeyError "publicationDate"),
   {| requests := 3 + requests w;
      stdout := stdout w ++
        [Text singers_caption; Table singers_df;
         Text songs_caption; Table songs_df;
         Text albums_caption; Table {| columns := ∅; rows := [] |}];
      figures := figures w |}).
Proof.
  intros Hsingers Hsongs Hdocument Hresults Hbindings.
  assert (answer endpoint (S (S (requests w))) (init version_info query_albums)
            = Ok {| columns := ∅; rows := [] |}) as Halbums.
  { unfold answer. rewrite Hdocument. simpl. rewrite table_of_response_shaped.
    unfold table_of_document, getitem. rewrite Hresults. simpl. by rewrite Hbindings. }
  unfold main, mbind, Script_bind.
  rewrite fetch_eq, Hsingers, Hsongs, Halbums.
  by rewrite render_no_date_column.
Qed.

End Runs.

Section Stops.

Context (to_datetime : Series → list (option Timestamp)).
Hypothesis to_datetime_length : ∀ series, length (to_datetime series) = length series.
Context (sort_values : ∀ K : Type, list (K * nat) → list (K * nat)).
Hypothesis sort_values_spec : sorts_descending sort_values.

(** X10. The report needs both columns and something to draw in each
    bar chart.  Without [publicationDate] it raises [KeyError] at the
    date step, before any figure.  With [publicationDate] but no date
    that parses, the bar plot of the years raises [IndexError] and no
    figure is shown.  With a date that parses but without
    [performerLabel] it shows the bar chart of the years and then
    raises [KeyError]; with [performerLabel] but no row that names a
    performer it shows the bar chart of the years and the bar plot of
    the performers raises [IndexError].  In every case the figures that
    follow are never shown. *)
Theorem render_needs_both_columns (singers_df songs_df albums_df : DataFrame)
    (w : world) :
  let year_bar :=
    YearBar (counts_by_year sort_values
               (parsed_years (to_datetime (publication_dates albums_df)))) in
  let after_year_bar :=
    {| requests := requests w; stdout := stdout w; figures := figures w ++ [year_bar] |} in
  ("publicationDate" ∉ columns albums_df →
   render to_datetime sort_values singers_df songs_df albums_df w =
   (Raise (KeyError "publicationDate"), w)) ∧
  ("publicationDate" ∈ columns albums_df →
   ¬ some_date_parses to_datetime albums_df →
   render to_datetime sort_values singers_df songs_df albums_df w =
   (Raise IndexError, w)) ∧
  ("publicationDate" ∈ columns albums_df →
   some_date_parses to_datetime albums_df →
   "performerLabel" ∉ columns albums_df →
   render to_datetime sort_values singers_df songs_df albums_df w =
   (Raise (KeyError "performerLabel"), after_year_bar)) ∧
  ("publicationDate" ∈ columns albums_df →
   some_date_parses to_datetime albums_df →
   "performerLabel" ∈ columns albums_df →
   ¬ some_performer_named albums_df →
   render to_datetime sort_values singers_df songs_df albums_df w =
   (Raise IndexError, after_year_bar)).
Proof.
  intros year_bar after_year_bar. split_and!.
  - by apply render_no_date_column.
  - intros Hdate Hnone. apply (render_year_bar_empty _ to_datetime_length); [done|].
    by apply (counts_by_year_nil _ sort_values_spec), parsed_years_nil.
  - intros Hdate Hsome Hperformer.
    apply (render_no_performer_column _ to_datetime_length); [done| |done].
    by apply (year_bar_nonempty _ _ sort_values_spec).
  - intros Hdate Hsome Hperformer Hnone.
    apply (render_performer_bar_empty _ to_datetime_length); [done| |done|].
    + by apply (year_bar_nonempty _ _ sort_values_spec).
    + by apply head_nil, (value_counts_nil _ _ sort_values_spec), performer_labels_nil.
Qed.

End Stops.

(** ** Examples of the further properties *)

Lemma missing_value_raises_witness :
  let faulty : RawBinding := {[ "b" := {[ "type" := "literal" ]} ]} in
  let results : list RawBinding := [ {[ "a" := Sample.literal "x" ]}; faulty ] in
  (faulty ∈ results ∧ faulty !! "b" = Some {[ "type" := "literal" ]}) ∧
  transform2dicts results = Raise (KeyError "value").
Proof.
  intros faulty results.
  assert (faulty ∈ results) as Hin by (right; left).
  split; [by split|].
  exact (missing_value_raises results faulty "b" {[ "type" := "literal" ]}
           Hin eq_refl eq_refl).
Defined.

Lemma flattening_ignores_metadata_witness :
  let row1 : RawBinding := {[ "a" := Sample.literal "x" ]} in
  let row2 : RawBinding := {[ "a" := {[ "value" := "x"; "xml:lang" := "en" ]} ]} in
  (well_formed_row row1 ∧ dom row1 = dom row2) ∧
  transform_row row1 = transform_row row2.
Proof.
  intros row1 row2.
  assert (well_formed_row row1) as Hwf by compute_done.
  assert (dom row1 = dom row2) as Hdom by compute_done.
  split; [by split|].
  apply (flattening_ignores_metadata row1 row2 Hwf Hdom).
  intros key binding1 binding2 Hkey1 Hkey2.
  apply lookup_singleton_Some in Hkey1 as [<- <-].
  apply lookup_singleton_Some in Hkey2 as [_ <-]. reflexivity.
Defined.


Lemma fetch_in_order_witness :
  let empty_answer := Ok (shaped (Sample.document [])) in
  let endpoint := Sample.scripted [empty_answer; empty_answer; empty_answer] in
  let empty := {| columns := ∅; rows := [] |} in
  answer endpoint 0 (init (3, 11) "singers") = Ok empty ∧
  fetch (3, 11) endpoint "singers" "songs" "albums" Sample.start =
  (Ok (empty, empty, empty),
   {| requests := 3;
      stdout := [Text singers_caption; Table empty; Text songs_caption; Table empty;
                 Text albums_caption; Table empty];
      figures := [] |}).
Proof.
  intros empty_answer endpoint empty. split; [reflexivity|].
  exact (fetch_in_order (3, 11) endpoint "singers" "songs" "albums" Sample.start
           empty empty empty eq_refl eq_refl eq_refl).
Defined.

Lemma fetch_stops_at_first_failure_witness :
  let empty_answer := Ok (shaped (Sample.document [])) in
  let endpoint :=
    Sample.scripted [empty_answer; Raise EndPointInternalError; empty_answer] in
  let empty := {| columns := ∅; rows := [] |} in
  answer endpoint 1 (init (3, 11) "songs") = Raise EndPointInternalError ∧
  fetch (3, 11) endpoint "singers" "songs" "albums" Sample.start =
  (Raise EndPointInternalError,
   {| requests := 2; stdout := [Text singers_caption; Table empty]; figures := [] |}).
Proof.
  intros empty_answer endpoint empty. split; [reflexivity|].
  destruct (fetch_stops_at_first_failure (3, 11) endpoint "singers" "songs" "albums"
              Sample.start) as (_ & Hsecond & _).
  exact (Hsecond empty EndPointInternalError eq_refl eq_refl).
Defined.

Lemma line_chart_shows_counts_by_year_witness :
  ∃ (albums_df' : DataFrame) (years : list Z),
    release_years Sample.to_datetime Sample.three_albums = Ok (albums_df', years) ∧
    album_counts_by_year albums_df' = Ok [(1965%Z, 1); (1970%Z, 1)].
Proof.
  eexists _, _. split.
  - apply (release_years_eq Sample.to_datetime sample_to_datetime_length).
    compute_done.
  - rewrite (line_chart_shows_counts_by_year Sample.to_datetime
               sample_to_datetime_length Sample.sort_values sort_values_spec
               Sample.three_albums _ _
               (release_years_eq Sample.to_datetime sample_to_datetime_length
                  Sample.three_albums ltac:(compute_done))).
    reflexivity.
Defined.

Lemma year_counts_add_up_witness :
  ∃ (albums_df' : DataFrame) (years : list Z),
    release_years Sample.to_datetime Sample.three_albums = Ok (albums_df', years) ∧
    sum_list (counts_by_year Sample.sort_values years).*2 = length years ∧
    length years ≤ 3.
Proof.
  eexists _, _. split.
  - apply (release_years_eq Sample.to_datetime sample_to_datetime_length).
    compute_done.
  - destruct (year_counts_add_up Sample.to_datetime sample_to_datetime_length
                Sample.sort_values sort_values_spec
                Sample.three_albums _ _
                (release_years_eq Sample.to_datetime sample_to_datetime_length
                   Sample.three_albums ltac:(compute_done)))
      as (Hsum & _ & Hle & _).
    split; [exact Hsum|exact Hle].
Defined.

(** Three albums, two of Performer A and one that names no performer. *)
Lemma performer_counts_add_up_witness :
  ("performerLabel" ∈ columns Sample.albums_with_unnamed ∧
   length (rows Sample.albums_with_unnamed) = 3 ∧
   NoDup [Str "Performer A"] ∧
   ∀ p, p ∈ [Str "Performer A"] ↔ 0 < albums_of p Sample.albums_with_unnamed) ∧
  ∃ counts : list (cell * nat),
    performer_album_counts Sample.sort_values Sample.albums_with_unnamed = Ok counts ∧
    sum_list counts.*2 = 2 ∧
    (Str "Performer A", 2) ∈ counts ∧
    head 10 counts = counts.
Proof.
  assert ("performerLabel" ∈ columns Sample.albums_with_unnamed) as Hcol by compute_done.
  assert (NoDup [Str "Performer A"]) as Hnodup by compute_done.
  assert (∀ p, p ∈ [Str "Performer A"] ↔ 0 < albums_of p Sample.albums_with_unnamed)
    as Hall.
  { intros p. rewrite <- elem_of_performer_labels.
    rewrite <- (elem_of_first_seen p (performer_labels Sample.albums_with_unnamed)).
    reflexivity. }
  split; [by split_and!|].
  destruct (performer_counts_add_up Sample.sort_values sort_values_spec
              Sample.albums_with_unnamed Hcol)
    as (counts & Hcounts & Hsum & _ & _ & Hin & _ & Hwhole).
  exists counts. split; [exact Hcounts|]. split_and!.
  - rewrite Hsum. reflexivity.
  - apply (Hin (Str "Performer A")). vm_compute. lia.
  - apply (Hwhole [Str "Performer A"] Hnodup Hall). simpl. lia.
Defined.

(** The four ways in which the report stops: a table without columns,
    a table whose only date does not parse, a table with a date and
    without the performer column, a table with a date whose only row
    names no performer. *)
Lemma render_needs_both_columns_witness :
  let empty := {| columns := ∅; rows := [] |} in
  let bar := YearBar [(1965%Z, 1)] in
  let shown := {| requests := 0; stdout := []; figures := [bar] |} in
  (("publicationDate" ∉ columns empty) ∧
   ("publicationDate" ∈ columns Sample.undated_albums ∧
    ¬ some_date_parses Sample.to_datetime Sample.undated_albums) ∧
   ("publicationDate" ∈ columns Sample.dates_only ∧
    some_date_parses Sample.to_datetime Sample.dates_only ∧
    "performerLabel" ∉ columns Sample.dates_only) ∧
   ("publicationDate" ∈ columns Sample.unnamed_albums ∧
    some_date_parses Sample.to_datetime Sample.unnamed_albums ∧
    "performerLabel" ∈ columns Sample.unnamed_albums ∧
    ¬ some_performer_named Sample.unnamed_albums)) ∧
  render Sample.to_datetime Sample.sort_values empty empty empty Sample.start =
    (Raise (KeyError "publicationDate"), Sample.start) ∧
  render Sample.to_datetime Sample.sort_values empty empty Sample.undated_albums
    Sample.start = (Raise IndexError, Sample.start) ∧
  render Sample.to_datetime Sample.sort_values empty empty Sample.dates_only
    Sample.start = (Raise (KeyError "performerLabel"), shown) ∧
  render Sample.to_datetime Sample.sort_values empty empty Sample.unnamed_albums
    Sample.start = (Raise IndexError, shown).
Proof.
  intros empty bar shown.
  pose (t1965 := {| year := 1965; month := 1; day := 1;
                    hour := 0; minute := 0; second := 0 |}).
  assert ("publicationDate" ∉ columns empty) as Ha by compute_done.
  assert ("publicationDate" ∈ columns Sample.undated_albums) as Hb1 by compute_done.
  assert (¬ some_date_parses Sample.to_datetime Sample.undated_albums) as Hb2
    by (apply parsed_years_nil; reflexivity).
  assert ("publicationDate" ∈ columns Sample.dates_only) as Hc1 by compute_done.
  assert (some_date_parses Sample.to_datetime Sample.dates_only) as Hc2
    by (exists 0, t1965; reflexivity).
  assert ("performerLabel" ∉ columns Sample.dates_only) as Hc3 by compute_done.
  assert ("publicationDate" ∈ columns Sample.unnamed_albums) as Hd1 by compute_done.
  assert (some_date_parses Sample.to_datetime Sample.unnamed_albums) as Hd2
    by (exists 0, t1965; reflexivity).
  assert ("performerLabel" ∈ columns Sample.unnamed_albums) as Hd3 by compute_done.
  assert (¬ some_performer_named Sample.unnamed_albums) as Hd4
    by (apply performer_labels_nil; reflexivity).
  split; [by split_and!|]. split_and!.
  - exact (proj1 (render_needs_both_columns Sample.to_datetime sample_to_datetime_length
                    Sample.sort_values sort_values_spec empty empty empty Sample.start) Ha).
  - destruct (render_needs_both_columns Sample.to_datetime sample_to_datetime_length
                Sample.sort_values sort_values_spec empty empty Sample.undated_albums
                Sample.start) as (_ & Hstop & _).
    exact (Hstop Hb1 Hb2).
  - destruct (render_needs_both_columns Sample.to_datetime sample_to_datetime_length
                Sample.sort_values sort_values_spec empty empty Sample.dates_only
                Sample.start) as (_ & _ & Hstop & _).
    exact (Hstop Hc1 Hc2 Hc3).
  - destruct (render_needs_both_columns Sample.to_datetime sample_to_datetime_length
                Sample.sort_values sort_values_spec empty empty Sample.unnamed_albums
                Sample.start) as (_ & _ & _ & Hstop).
    exact (Hstop Hd1 Hd2 Hd3 Hd4).
Defined.


Lemma run_without_albums_witness :
  let empty_answer := Ok (shaped (Sample.document [])) in
  let endpoint := Sample.scripted [empty_answer; empty_answer; empty_answer] in
  let empty := {| columns := ∅; rows := [] |} in
  answer endpoint 0 (init (3, 11) "singers") = Ok empty ∧
  main (3, 11) endpoint Sample.to_datetime Sample.sort_values
    "singers" "songs" "albums" Sample.start =
  (Raise (KeyError "publicationDate"),
   {| requests := 3;
      stdout := [Text singers_caption; Table empty; Text songs_caption; Table empty;
                 Text albums_caption; Table empty];
      figures := [] |}).
Proof.
  intros empty_answer endpoint empty. split; [reflexivity|].
  exact (run_without_albums Sample.to_datetime Sample.sort_values (3, 11) endpoint
           "singers" "songs" "albums" Sample.start empty empty
           (Sample.document []) {[ "bindings" := [] ]}
           eq_refl eq_refl eq_refl eq_refl eq_refl).
Defined.
